(** * Clinical Referral Lab Management API: authorization and resource lifecycle

    A shallow embedding of [src/main.py].  Python dictionaries and BSON
    documents are finite maps from field names to values, a collection is the
    list of its documents in natural order, and a request handler is a
    function from the database to a result (a value or the exception raised)
    and the database it leaves behind.  Clock readings, generated identifiers
    and password salts are inputs of a request ([Env]).  The libraries the
    program calls (python-jose, passlib, the JSON parser, the ordering of the
    store) are variables of the section [Api]. *)

From stdpp Require Import gmap strings list fin_maps.
From Stdlib Require Import ZArith NArith Ascii String.

Set Warnings "-register-all".

Open Scope string_scope.
Open Scope Z_scope.

(** ** Values and documents *)

(** The identifier of a stored document: the bytes of a [bson.ObjectId]. *)
Abbreviation ObjectId := (list N).

(** A Python / BSON value.  A float is kept as its bit pattern, a [datetime]
    as microseconds since the epoch. *)
Inductive Value :=
| VNone
| VBool (b : bool)
| VInt (n : Z)
| VFloat (bits : Z)
| VStr (s : string)
| VList (l : list Value)
| VDict (kvs : list (string * Value))
| VDate (t : Z)
| VOid (o : ObjectId).

Abbreviation Document := (gmap string Value).
Abbreviation Collection := (list (gmap string Value)).

(** Python truth value of an object. *)
Definition truthy (v : Value) : bool :=
  match v with
  | VNone => false
  | VBool b => b
  | VInt n => negb (n =? 0)
  | VFloat bits => negb ((bits =? 0) || (bits =? 2 ^ 63))
  | VStr s => negb (String.eqb s "")
  | VList l => match l with [] => false | _ => true end
  | VDict kvs => match kvs with [] => false | _ => true end
  | VDate _ => true
  | VOid _ => true
  end.

(** [d.get(k)]: the value, [None] when the key is absent. *)
Definition py_get (d : Document) (k : string) : Value :=
  default VNone (d !! k).

(** [d.get(k, dflt)]. *)
Definition py_get_default (d : Document) (k : string) (dflt : Value) : Value :=
  default dflt (d !! k).

(** [d.setdefault(k, v)]: writes only when the key is absent. *)
Definition setdefault (k : string) (v : Value) (d : Document) : Document :=
  match d !! k with
  | Some _ => d
  | None => <[k := v]> d
  end.

(** [d.update(u)]: the keys of [u] win. *)
Definition dict_update (u d : Document) : Document := u ∪ d.

Definition is_none (v : Value) : bool :=
  match v with VNone => true | _ => false end.

Definition opt_str (o : option string) : Value :=
  match o with Some s => VStr s | None => VNone end.

Definition opt_int (o : option Z) : Value :=
  match o with Some n => VInt n | None => VNone end.

Definition opt_float (o : option Z) : Value :=
  match o with Some b => VFloat b | None => VNone end.

(** ** ObjectId: parsing and printing *)

Definition is_space (c : ascii) : bool :=
  let n := N_of_ascii c in
  ((n =? 32) || ((9 <=? n) && (n <=? 13)))%N.

Definition hexval (c : ascii) : option N :=
  let n := N_of_ascii c in
  if ((48 <=? n) && (n <=? 57))%N then Some (n - 48)%N
  else if ((97 <=? n) && (n <=? 102))%N then Some (n - 87)%N
  else if ((65 <=? n) && (n <=? 70))%N then Some (n - 55)%N
  else None.

(** [bytes.fromhex]: two hexadecimal digits per byte, white space between
    bytes skipped. *)
Fixpoint fromhex (s : string) : option (list N) :=
  match s with
  | EmptyString => Some []
  | String c rest =>
      if is_space c then fromhex rest
      else
        match hexval c, rest with
        | Some hi, String c2 rest2 =>
            match hexval c2 with
            | Some lo => cons (16 * hi + lo)%N <$> fromhex rest2
            | None => None
            end
        | _, _ => None
        end
  end.

(** [ObjectId(s)] for a string: 24 characters accepted by [bytes.fromhex];
    [None] stands for [bson.errors.InvalidId]. *)
Definition ObjectId_of_str (s : string) : option ObjectId :=
  if (String.length s =? 24)%nat then fromhex s else None.

Definition hexdigit (n : N) : ascii :=
  if (n <? 10)%N then ascii_of_N (48 + n) else ascii_of_N (87 + n).

(** [str(oid)]: lower-case hexadecimal. *)
Fixpoint str_of_ObjectId (o : ObjectId) : string :=
  match o with
  | [] => EmptyString
  | b :: o' =>
      String (hexdigit (b / 16)%N)
        (String (hexdigit (b mod 16)%N) (str_of_ObjectId o'))
  end.

(** ** The database *)

(** The collections the program names: [db["user"]], [db["patient"]],
    [db["testcatalog"]], [db["referral"]] and [db["testresult"]]. *)
Inductive CollName := Cuser | Cpatient | Ctestcatalog | Creferral | Ctestresult.

Record DB := { user_docs : Collection; patient_docs : Collection;
               testcatalog_docs : Collection; referral_docs : Collection;
               testresult_docs : Collection }.

(** [db[name]]. *)
Definition coll (name : CollName) (db : DB) : Collection :=
  match name with
  | Cuser => user_docs db
  | Cpatient => patient_docs db
  | Ctestcatalog => testcatalog_docs db
  | Creferral => referral_docs db
  | Ctestresult => testresult_docs db
  end.

(** The database with the collection [name] replaced. *)
Definition set_coll (name : CollName) (c : Collection) (db : DB) : DB :=
  match name with
  | Cuser => {| user_docs := c; patient_docs := patient_docs db;
                testcatalog_docs := testcatalog_docs db;
                referral_docs := referral_docs db;
                testresult_docs := testresult_docs db |}
  | Cpatient => {| user_docs := user_docs db; patient_docs := c;
                   testcatalog_docs := testcatalog_docs db;
                   referral_docs := referral_docs db;
                   testresult_docs := testresult_docs db |}
  | Ctestcatalog => {| user_docs := user_docs db;
                       patient_docs := patient_docs db;
                       testcatalog_docs := c;
                       referral_docs := referral_docs db;
                       testresult_docs := testresult_docs db |}
  | Creferral => {| user_docs := user_docs db;
                    patient_docs := patient_docs db;
                    testcatalog_docs := testcatalog_docs db;
                    referral_docs := c;
                    testresult_docs := testresult_docs db |}
  | Ctestresult => {| user_docs := user_docs db;
                      patient_docs := patient_docs db;
                      testcatalog_docs := testcatalog_docs db;
                      referral_docs := referral_docs db;
                      testresult_docs := c |}
  end.

Arguments coll : simpl never.
Arguments set_coll : simpl never.

(** ** Exceptions and handlers *)

Inductive Exception :=
| HTTPException (status_code : Z) (detail : string)
                (headers : list (string * string))
| InvalidId (oid : string)
| OtherError (name : string).

Inductive Result (A : Type) :=
| Return (a : A)
| Raise (e : Exception).
Arguments Return {A} a.
Arguments Raise {A} e.

(** A handler runs against the database; what it wrote before raising stays
    written. *)
Definition Handler (A : Type) : Type := DB → Result A * DB.

Definition ret {A} (a : A) : Handler A := λ db, (Return a, db).
Definition raise {A} (e : Exception) : Handler A := λ db, (Raise e, db).
Definition bind {A B} (m : Handler A) (f : A → Handler B) : Handler B :=
  λ db, match m db with
        | (Return a, db') => f a db'
        | (Raise e, db') => (Raise e, db')
        end.
Definition lift {A} (r : Result A) : Handler A := λ db, (r, db).

Notation "'let*' x ':=' m 'in' k" := (bind m (λ x, k))
  (at level 10, x name, m at level 100, k at level 200).
Notation "'do*' m 'in' k" := (bind m (λ _, k))
  (at level 10, m at level 100, k at level 200).

(** The response of an endpoint: one document or a list of documents. *)
Inductive Response :=
| RDoc (d : Document)
| RList (l : Collection).

(** The exception of an unparsable identifier, as a handler step. *)
Definition ObjectId_ (s : string) : Handler ObjectId :=
  match ObjectId_of_str s with
  | Some o => ret o
  | None => raise (InvalidId s)
  end.

(** ** The document store *)

(** Modelled from the spec: the module [database] that provides [db] is not
    among the sources; the store is "a document store reachable by collection
    name, exposed as insert/find/update/delete operations over opaque
    JSON-like documents".  A collection is the list of its documents, a
    query is an equality on one field, [$set] merges fields into the first
    matching document and touches nothing when none matches. *)
Inductive Filter :=
| FId (o : ObjectId)
| FStr (k : string) (s : string).

Definition matches (q : Filter) (d : Document) : bool :=
  match q with
  | FId o =>
      match d !! "_id" with
      | Some (VOid o') => bool_decide (o' = o)
      | _ => false
      end
  | FStr k s =>
      match d !! k with
      | Some (VStr s') => bool_decide (s' = s)
      | _ => false
      end
  end.

Fixpoint find_one (q : Filter) (c : Collection) : option Document :=
  match c with
  | [] => None
  | d :: c' => if matches q d then Some d else find_one q c'
  end.

Fixpoint update_one (q : Filter) (set : Document) (c : Collection)
  : Collection :=
  match c with
  | [] => []
  | d :: c' =>
      if matches q d then (set ∪ d) :: c' else d :: update_one q set c'
  end.

Fixpoint delete_one (q : Filter) (c : Collection) : Collection :=
  match c with
  | [] => []
  | d :: c' => if matches q d then c' else d :: delete_one q c'
  end.

Definition count_documents (q : Filter) (c : Collection) : nat :=
  List.length (filter (λ d, matches q d = true) c).

(** [insert_one]: a document without [_id] receives the generated one; the
    identifier stored is returned. *)
Definition insert_one (fresh : ObjectId) (d : Document) (c : Collection)
  : Value * Collection :=
  match d !! "_id" with
  | Some v => (v, (c ++ [d])%list)
  | None => (VOid fresh, (c ++ [<["_id" := VOid fresh]> d])%list)
  end.

Definition db_find_one (name : CollName) (q : Filter) : Handler (option Document) :=
  λ db, (Return (find_one q (coll name db)), db).

Definition db_update_one (name : CollName) (q : Filter) (set : Document)
  : Handler unit :=
  λ db, (Return tt, set_coll name (update_one q set (coll name db)) db).

Definition db_delete_one (name : CollName) (q : Filter) : Handler unit :=
  λ db, (Return tt, set_coll name (delete_one q (coll name db)) db).

Definition db_insert_one (name : CollName) (fresh : ObjectId) (d : Document)
  : Handler Value :=
  λ db, let '(v, c) := insert_one fresh d (coll name db) in
        (Return v, set_coll name c db).

Definition db_count_documents (name : CollName) (q : Filter) : Handler nat :=
  λ db, (Return (count_documents q (coll name db)), db).

(** ** Request bodies (the pydantic models) *)

Module UserCreate.
Record t := { name : string; email : string; password : string;
              role : string }.
End UserCreate.

Module PatientIn.
Record t := { first_name : string; last_name : string;
              date_of_birth : option string; gender : option string;
              phone : option string; email : option string;
              hospital_id : option string }.

(** [model_dump()]: every field of the model, unset ones as [None]. *)
Definition model_dump (b : t) : Document :=
  <["first_name" := VStr (first_name b)]>
  (<["last_name" := VStr (last_name b)]>
  (<["date_of_birth" := opt_str (date_of_birth b)]>
  (<["gender" := opt_str (gender b)]>
  (<["phone" := opt_str (phone b)]>
  (<["email" := opt_str (email b)]>
  (<["hospital_id" := opt_str (hospital_id b)]> ∅)))))).
End PatientIn.

Module TestCatalogIn.
Record t := { code : string; name : string; description : option string;
              sample_type : option string; price : option Z;
              tat_hours : option Z }.

Definition model_dump (b : t) : Document :=
  <["code" := VStr (code b)]>
  (<["name" := VStr (name b)]>
  (<["description" := opt_str (description b)]>
  (<["sample_type" := opt_str (sample_type b)]>
  (<["price" := opt_float (price b)]>
  (<["tat_hours" := opt_int (tat_hours b)]> ∅))))).
End TestCatalogIn.

Module ReferralIn.
(** [tests] defaults to the empty list and [priority] to ["normal"] when
    the client leaves them out; the model has no [status] field. *)
Record t := { patient_id : string; hospital_id : option string;
              ordered_by : option string; tests : list string;
              priority : string; notes : option string }.

Definition model_dump (b : t) : Document :=
  <["patient_id" := VStr (patient_id b)]>
  (<["hospital_id" := opt_str (hospital_id b)]>
  (<["ordered_by" := opt_str (ordered_by b)]>
  (<["tests" := VList (VStr <$> tests b)]>
  (<["priority" := VStr (priority b)]>
  (<["notes" := opt_str (notes b)]> ∅))))).
End ReferralIn.

Module TestResultIn.
(** [status] defaults to ["pending"] when the client leaves it out. *)
Record t := { referral_id : string; test_code : string;
              value : option string; unit : option string;
              reference_range : option string; status : string }.

Definition model_dump (b : t) : Document :=
  <["referral_id" := VStr (referral_id b)]>
  (<["test_code" := VStr (test_code b)]>
  (<["value" := opt_str (value b)]>
  (<["unit" := opt_str (unit b)]>
  (<["reference_range" := opt_str (reference_range b)]>
  (<["status" := VStr (status b)]> ∅))))).
End TestResultIn.

(** What a request reads from its environment: the clock inside
    [jwt.decode], the first and second [datetime.now] of the handler, the
    identifier the driver generates and the salt of the password hash. *)
Record Env := { clock_auth : Z; clock1 : Z; clock2 : Z;
                fresh_id : ObjectId; salt : string }.

Definition ACCESS_TOKEN_EXPIRE_MINUTES : Z := 60 * 12.

(** [timedelta(minutes=m)] in microseconds. *)
Definition minutes (m : Z) : Z := m * 60 * 1000000.

(** [timegm(utctimetuple)]: whole seconds since the epoch. *)
Definition timegm (t : Z) : Z := t / 1000000.

(** [d[k]], raising [KeyError]. *)
Definition py_index (d : Document) (k : string) : Result Value :=
  match d !! k with
  | Some v => Return v
  | None => Raise (OtherError "KeyError")
  end.

(** Truth value of an optional document: [None] and [{}] are false. *)
Definition doc_truthy (o : option Document) : bool :=
  match o with
  | Some d => negb (bool_decide (size d = 0%nat))
  | None => false
  end.

(** [x in roles] for the value of a role field. *)
Definition role_in (v : Value) (roles : list string) : bool :=
  match v with
  | VStr r => bool_decide (r ∈ roles)
  | _ => false
  end.

(** A dict built from key/value pairs, later keys winning. *)
Definition dict_of_pairs (kvs : list (string * Value)) : Document :=
  foldl (λ m kv, <[kv.1 := kv.2]> m) ∅ kvs.

(** Ordered insertion, for the sorted listings. *)
Fixpoint insert_sorted (le : Document → Document → bool) (d : Document)
  (l : Collection) : Collection :=
  match l with
  | [] => [d]
  | x :: l' => if le d x then d :: l else x :: insert_sorted le d l'
  end.

Definition sort_by (le : Document → Document → bool) (l : Collection)
  : Collection :=
  foldr (insert_sorted le) [] l.

(** ** A sample deployment

    Concrete stand-ins for the libraries and a small database, on which the
    properties are exercised. *)

Module Sample.

Definition key : string := "supersecretkey".

(** A token is ["s:"] followed by its payload, signed with [key]. *)
Definition jws_verify (token k : string) : option string :=
match token with
| String "s" (String ":" payload) =>
    if String.eqb k key then Some payload else None
| _ => None
end.

Definition admin_id : string := "000000000000000000000001".
Definition viewer_id : string := "000000000000000000000002".
Definition inactive_id : string := "000000000000000000000003".
Definition gone_id : string := "000000000000000000000009".

Definition claims_for (sub role : string) (exp : Z) : Value :=
VDict [("sub", VStr sub); ("role", VStr role); ("exp", VInt exp)].

Definition json_loads (payload : string) : option Value :=
if String.eqb payload "admin" then Some (claims_for admin_id "admin" 5000)
else if String.eqb payload "viewer"
     then Some (claims_for viewer_id "viewer" 5000)
else if String.eqb payload "inactive"
     then Some (claims_for inactive_id "lab_tech" 5000)
else if String.eqb payload "gone"
     then Some (claims_for gone_id "admin" 5000)
else if String.eqb payload "expired"
     then Some (claims_for admin_id "admin" 10)
else if String.eqb payload "list" then Some (VList [])
else None.

Definition jwt_encode (claims : Document) (k : string) : string := "s:admin".
Definition jose_claims_ok (claims : Document) : bool := true.
Definition pwd_context_hash (salt password : string) : string :=
String.append salt (String.append "$" password).
Definition pwd_context_verify (password : string) (h : Value) : Result bool :=
match h with
| VStr s => Return (String.eqb s (String.append "salt$" password))
| _ => Raise (OtherError "TypeError")
end.
Definition isoformat (t : Z) : string := "1970-01-01T00:00:00+00:00".
Definition str_other (v : Value) : string := "".
Definition bson_leb (a b : Value) : bool := true.

Definition oid (n : N) : ObjectId := [0; 0; 0; 0; 0; 0; 0; 0; 0; 0; 0; n]%N.

Definition admin_user : Document :=
<["_id" := VOid (oid 1)]> (<["name" := VStr "Ada"]>
(<["email" := VStr "ada@lab.local"]>
(<["password_hash" := VStr "salt$ada-secret"]>
(<["role" := VStr "admin"]> (<["is_active" := VBool true]> ∅))))).

(** A user document written without the [is_active] field. *)
Definition viewer_user : Document :=
<["_id" := VOid (oid 2)]> (<["name" := VStr "Vic"]>
(<["email" := VStr "vic@lab.local"]>
(<["password_hash" := VStr "salt$vic-secret"]>
(<["role" := VStr "viewer"]> ∅)))).

Definition inactive_user : Document :=
<["_id" := VOid (oid 3)]> (<["name" := VStr "Ian"]>
(<["email" := VStr "ian@lab.local"]>
(<["password_hash" := VStr "salt$ian-secret"]>
(<["role" := VStr "lab_tech"]> (<["is_active" := VBool false]> ∅))))).

Definition patient : Document :=
<["_id" := VOid (oid 16)]> (<["first_name" := VStr "Ann"]>
(<["last_name" := VStr "Lee"]> (<["date_of_birth" := VNone]>
(<["gender" := VNone]> (<["phone" := VStr "555-0100"]>
(<["email" := VNone]> (<["hospital_id" := VNone]>
(<["created_at" := VDate 100]> (<["updated_at" := VDate 100]> ∅))))))))).

Definition referral : Document :=
<["_id" := VOid (oid 32)]>
(<["patient_id" := VStr "000000000000000000000010"]>
(<["hospital_id" := VNone]> (<["ordered_by" := VStr admin_id]>
(<["tests" := VList [VStr "CBC"]]> (<["priority" := VStr "normal"]>
(<["notes" := VNone]> (<["status" := VStr "pending"]>
(<["created_at" := VDate 200]> (<["updated_at" := VDate 200]> ∅))))))))).

Definition result : Document :=
<["_id" := VOid (oid 48)]>
(<["referral_id" := VStr "000000000000000000000020"]>
(<["test_code" := VStr "CBC"]> (<["value" := VStr "4.2"]>
(<["unit" := VNone]> (<["reference_range" := VNone]>
(<["status" := VStr "pending"]>
(<["created_at" := VDate 300]> (<["updated_at" := VDate 300]> ∅)))))))).

Definition db : DB :=
{| user_docs := [admin_user; viewer_user; inactive_user];
   patient_docs := [patient];
   testcatalog_docs := [];
   referral_docs := [referral];
   testresult_docs := [result] |}.

(** The request is served 1000 s after the epoch. *)
Definition env : Env :=
{| clock_auth := 1000000000; clock1 := 1000000001; clock2 := 1000000002;
   fresh_id := oid 255; salt := "salt" |}.

(** A body that names the patient and nothing else. *)
Definition referral_body : ReferralIn.t :=
{| ReferralIn.patient_id := "000000000000000000000010";
   ReferralIn.hospital_id := None; ReferralIn.ordered_by := None;
   ReferralIn.tests := []; ReferralIn.priority := "normal";
   ReferralIn.notes := None |}.

(** A patient update that gives the two required names only. *)
Definition patient_body : PatientIn.t :=
{| PatientIn.first_name := "Ann"; PatientIn.last_name := "Lee";
   PatientIn.date_of_birth := None; PatientIn.gender := None;
   PatientIn.phone := None; PatientIn.email := None;
   PatientIn.hospital_id := None |}.

(** The verification of a result. *)
Definition verification : Document :=
<["status" := VStr "verified"]> (<["reviewed_by" := VStr admin_id]>
(<["reviewed_at" := VStr "2024-01-01T00:00:00Z"]> ∅)).

(** A registration under a new email, and one under the admin's email. *)
Definition new_user : UserCreate.t :=
  {| UserCreate.name := "Bob"; UserCreate.email := "bob@lab.local";
     UserCreate.password := "bob-secret";
     UserCreate.role := "hospital_staff" |}.

Definition known_user : UserCreate.t :=
  {| UserCreate.name := "Ada II"; UserCreate.email := "ada@lab.local";
     UserCreate.password := "x"; UserCreate.role := "viewer" |}.

(** A user document with neither name, role nor active flag. *)
Definition bare_user : Document :=
  <["_id" := VOid (oid 2)]> (<["email" := VStr "vic@lab.local"]>
  (<["password_hash" := VStr "salt$vic-secret"]> ∅)).

Definition db_bare : DB :=
  {| user_docs := [admin_user; bare_user]; patient_docs := [];
     testcatalog_docs := []; referral_docs := []; testresult_docs := [] |}.

Definition db_one : DB :=
  {| user_docs := [admin_user]; patient_docs := [];
     testcatalog_docs := []; referral_docs := []; testresult_docs := [] |}.

Definition db_empty : DB :=
  {| user_docs := []; patient_docs := []; testcatalog_docs := [];
     referral_docs := []; testresult_docs := [] |}.

(** A second token table: two payloads for the viewer's identifier, one of
    which claims the role admin. *)
Definition json_loads_forged (payload : string) : option Value :=
  if String.eqb payload "admin" then Some (claims_for viewer_id "admin" 5000)
  else if String.eqb payload "viewer"
       then Some (claims_for viewer_id "viewer" 5000)
  else None.

(** A third token table: a payload whose subject is a user name, not an
    identifier of the store. *)
Definition json_loads_named (payload : string) : option Value :=
  if String.eqb payload "alice" then Some (claims_for "alice" "admin" 5000)
  else None.

End Sample.

(** ** The application *)

Section Api.

(** Process configuration. *)
Variable SECRET_KEY : string.

(** python-jose: [jws.verify token key] gives the payload bytes of a token
    whose structure and signature are valid; [jwt.encode claims key]. *)
Variable jws_verify : string → string → option string.
Variable jwt_encode : Document → string → string.
(** The checks of python-jose on registered claims other than [exp] and
    [sub] (iat, nbf, aud, iss, jti). *)
Variable jose_claims_ok : Document → bool.
(** [json.loads]. *)
Variable json_loads : string → option Value.
(** passlib: [hash] with the salt drawn, [verify] with the exception it
    may raise on a value that is no hash. *)
Variable pwd_context_hash : string → string → string.
Variable pwd_context_verify : string → Value → Result bool.
(** [datetime.isoformat], [str] on values other than identifiers and
    strings, and the ordering of the store on field values. *)
Variable isoformat : Z → string.
Variable str_other : Value → string.
Variable bson_leb : Value → Value → bool.

Definition py_str (v : Value) : string :=
  match v with
  | VOid o => str_of_ObjectId o
  | VStr s => s
  | _ => str_other v
  end.

Definition hash_password (env : Env) (password : string) : string :=
  pwd_context_hash (salt env) password.

Definition verify_password (plain_password : string)
  (hashed_password : Value) : Result bool :=
  pwd_context_verify plain_password hashed_password.

Definition create_access_token (data : Document) (env : Env) : string :=
  let to_encode := data in
  let expire := clock1 env + minutes ACCESS_TOKEN_EXPIRE_MINUTES in
  let to_encode := dict_update {["exp" := VDate expire]} to_encode in
  jwt_encode to_encode SECRET_KEY.

Definition serialize_doc (doc : Document) : Document :=
  if bool_decide (size doc = 0%nat) then doc
  else
    let d :=
      if truthy (py_get doc "_id")
      then <["id" := VStr (py_str (py_get doc "_id"))]> (delete "_id" doc)
      else doc in
    (λ v, match v with VDate t => VStr (isoformat t) | _ => v end) <$> d.

(** [jwt.decode token key] at time [now] (seconds); [None] stands for a
    [JWTError]: bad structure or signature, a payload that is no JSON
    object, an expiry that is no integer or lies before [now], a subject
    that is no string, or another registered claim refused. *)
Definition validate_exp (claims : Document) (now : Z) : bool :=
  match claims !! "exp" with
  | None => true
  | Some (VInt exp) => negb (exp <? now)
  | Some _ => false
  end.

Definition validate_sub (claims : Document) : bool :=
  match claims !! "sub" with
  | None => true
  | Some (VStr _) => true
  | Some _ => false
  end.

Definition jwt_decode (token key : string) (now : Z) : option Document :=
  match jws_verify token key with
  | None => None
  | Some payload =>
      match json_loads payload with
      | Some (VDict kvs) =>
          let claims := dict_of_pairs kvs in
          if validate_exp claims now && validate_sub claims
             && jose_claims_ok claims
          then Some claims else None
      | _ => None
      end
  end.

Definition credentials_exception : Exception :=
  HTTPException 401 "Could not validate credentials"
    [("WWW-Authenticate", "Bearer")].

(** [ObjectId(v)] for the subject of a token. *)
Definition ObjectId_of_value (v : Value) : Handler ObjectId :=
  match v with
  | VStr s => ObjectId_ s
  | VOid o => ret o
  | _ => raise (OtherError "TypeError")
  end.

Definition get_current_user (token : string) (env : Env)
  : Handler Document :=
  match jwt_decode token SECRET_KEY (timegm (clock_auth env)) with
  | None => raise credentials_exception
  | Some payload =>
      let user_id := py_get payload "sub" in
      let role := py_get payload "role" in
      if is_none user_id || is_none role then raise credentials_exception
      else
        let* oid := ObjectId_of_value user_id in
        let* user := db_find_one Cuser (FId oid) in
        match user with
        | None => raise credentials_exception
        | Some u =>
            if negb (doc_truthy user)
               || negb (truthy (py_get_default u "is_active" (VBool true)))
            then raise credentials_exception
            else ret (serialize_doc u)
        end
  end.

Definition require_roles (roles : list string) (token : string) (env : Env)
  : Handler Document :=
  let* current_user := get_current_user token env in
  if negb (role_in (py_get current_user "role") roles)
  then raise (HTTPException 403 "Insufficient permissions" [])
  else ret current_user.

(** *** Auth endpoints *)

Definition register_user (payload : UserCreate.t) (_ : Document)
  (env : Env) : Handler Response :=
  let* existing := db_find_one Cuser (FStr "email" (UserCreate.email payload)) in
  if doc_truthy existing
  then raise (HTTPException 400 "Email already registered" [])
  else
    let user_doc : Document :=
      <["name" := VStr (UserCreate.name payload)]>
      (<["email" := VStr (UserCreate.email payload)]>
      (<["password_hash" :=
           VStr (hash_password env (UserCreate.password payload))]>
      (<["role" := VStr (UserCreate.role payload)]>
      (<["is_active" := VBool true]>
      (<["created_at" := VDate (clock1 env)]>
      (<["updated_at" := VDate (clock2 env)]> ∅)))))) in
    let* inserted_id := db_insert_one Cuser (fresh_id env) user_doc in
    let user_doc := <["_id" := inserted_id]> user_doc in
    let user := serialize_doc user_doc in
    let* id := lift (py_index user "id") in
    let* name := lift (py_index user "name") in
    let* email := lift (py_index user "email") in
    let* role := lift (py_index user "role") in
    ret (RDoc (<["id" := id]> (<["name" := name]> (<["email" := email]>
              (<["role" := role]>
              (<["is_active" :=
                   py_get_default user "is_active" (VBool true)]> ∅)))))).

Definition login (username password : string) (env : Env)
  : Handler Response :=
  let* user := db_find_one Cuser (FStr "email" username) in
  match user with
  | None => raise (HTTPException 400 "Incorrect email or password" [])
  | Some u =>
      if negb (doc_truthy user)
      then raise (HTTPException 400 "Incorrect email or password" [])
      else
        let* ok := lift (verify_password password
                           (py_get_default u "password_hash" (VStr ""))) in
        if negb ok
        then raise (HTTPException 400 "Incorrect email or password" [])
        else
          let* uid := lift (py_index u "_id") in
          let access_token :=
            create_access_token
              (<["sub" := VStr (py_str uid)]>
               (<["role" := py_get_default u "role" (VStr "viewer")]> ∅))
              env in
          ret (RDoc (<["access_token" := VStr access_token]>
                    (<["token_type" := VStr "bearer"]> ∅)))
  end.

Definition me (current_user : Document) : Handler Response :=
  let* id := lift (py_index current_user "id") in
  let* name := lift (py_index current_user "name") in
  let* email := lift (py_index current_user "email") in
  let* role := lift (py_index current_user "role") in
  ret (RDoc (<["id" := id]> (<["name" := name]> (<["email" := email]>
            (<["role" := role]>
            (<["is_active" :=
                 py_get_default current_user "is_active" (VBool true)]>
               ∅)))))).

Definition seed_admin (env : Env) : Handler Response :=
  let* n := db_count_documents Cuser (FStr "role" "admin") in
  if (0 <? n)%nat
  then ret (RDoc {["message" := VStr "Admin exists"]})
  else
    let user_doc : Document :=
      <["name" := VStr "Super Admin"]>
      (<["email" := VStr "admin@lab.local"]>
      (<["password_hash" := VStr (hash_password env "admin123")]>
      (<["role" := VStr "admin"]>
      (<["is_active" := VBool true]>
      (<["created_at" := VDate (clock1 env)]>
      (<["updated_at" := VDate (clock2 env)]> ∅)))))) in
    let* _ := db_insert_one Cuser (fresh_id env) user_doc in
    let* email := lift (py_index user_doc "email") in
    ret (RDoc (<["message" := VStr "Admin seeded"]>
              (<["email" := email]>
              (<["password" := VStr "admin123"]> ∅)))).

(** *** Resource endpoints *)

Definition not_found (detail : string) : Exception :=
  HTTPException 404 detail [].

(** [db[name].find().sort(key, direction).limit(n)], serialized. *)
Definition db_list (name : CollName) (key : string) (direction : Z) (n : nat)
  : Handler Response :=
  λ db,
    let le (a b : Document) :=
      if direction =? 1 then bson_leb (py_get a key) (py_get b key)
      else bson_leb (py_get b key) (py_get a key) in
    (Return (RList (serialize_doc <$> take n (sort_by le (coll name db)))),
     db).

(** The common tail of the create handlers: stamp, insert, serialize. *)
Definition stamp_created (env : Env) (doc : Document) : Document :=
  dict_update (<["created_at" := VDate (clock1 env)]>
               (<["updated_at" := VDate (clock2 env)]> ∅)) doc.

Definition insert_and_serialize (name : CollName) (env : Env)
  (doc : Document) : Handler Response :=
  let* inserted_id := db_insert_one name (fresh_id env) doc in
  let doc := <["_id" := inserted_id]> doc in
  ret (RDoc (serialize_doc doc)).

(** The common shape of the update handlers: stamp the update, [$set] it on
    the document of that id, read the document back. *)
Definition set_and_fetch (name : CollName) (id detail : string) (env : Env)
  (update : Document) : Handler Response :=
  let update := <["updated_at" := VDate (clock1 env)]> update in
  let* oid := ObjectId_ id in
  do* db_update_one name (FId oid) update in
  let* oid' := ObjectId_ id in
  let* doc := db_find_one name (FId oid') in
  match doc with
  | Some d =>
      if doc_truthy doc then ret (RDoc (serialize_doc d))
      else raise (not_found detail)
  | None => raise (not_found detail)
  end.

Definition create_patient (body : PatientIn.t) (_ : Document) (env : Env)
  : Handler Response :=
  let doc := PatientIn.model_dump body in
  let doc := stamp_created env doc in
  insert_and_serialize Cpatient env doc.

Definition list_patients (_ : Document) : Handler Response :=
  db_list Cpatient "created_at" (-1) 200.

Definition get_patient (patient_id : string) (_ : Document)
  : Handler Response :=
  let* oid := ObjectId_ patient_id in
  let* doc := db_find_one Cpatient (FId oid) in
  match doc with
  | Some d =>
      if doc_truthy doc then ret (RDoc (serialize_doc d))
      else raise (not_found "Patient not found")
  | None => raise (not_found "Patient not found")
  end.

Definition update_patient (patient_id : string) (body : PatientIn.t)
  (_ : Document) (env : Env) : Handler Response :=
  let update := PatientIn.model_dump body in
  set_and_fetch Cpatient patient_id "Patient not found" env update.

Definition delete_patient (patient_id : string) (_ : Document)
  : Handler Response :=
  let* oid := ObjectId_ patient_id in
  do* db_delete_one Cpatient (FId oid) in
  ret (RDoc {["ok" := VBool true]}).

Definition create_test (body : TestCatalogIn.t) (_ : Document) (env : Env)
  : Handler Response :=
  let doc := TestCatalogIn.model_dump body in
  let doc := stamp_created env doc in
  insert_and_serialize Ctestcatalog env doc.

Definition list_tests (_ : Document) : Handler Response :=
  db_list Ctestcatalog "name" 1 500.

Definition update_test (test_id : string) (body : TestCatalogIn.t)
  (_ : Document) (env : Env) : Handler Response :=
  let update := TestCatalogIn.model_dump body in
  set_and_fetch Ctestcatalog test_id "Test not found" env update.

Definition delete_test (test_id : string) (_ : Document)
  : Handler Response :=
  let* oid := ObjectId_ test_id in
  do* db_delete_one Ctestcatalog (FId oid) in
  ret (RDoc {["ok" := VBool true]}).

Definition create_referral (body : ReferralIn.t) (current_user : Document)
  (env : Env) : Handler Response :=
  let doc := ReferralIn.model_dump body in
  let doc := setdefault "status" (VStr "pending") doc in
  let doc := setdefault "ordered_by" (py_get current_user "id") doc in
  let doc := stamp_created env doc in
  insert_and_serialize Creferral env doc.

Definition list_referrals (_ : Document) : Handler Response :=
  db_list Creferral "created_at" (-1) 200.

Definition update_referral (ref_id : string) (update : Document)
  (_ : Document) (env : Env) : Handler Response :=
  set_and_fetch Creferral ref_id "Referral not found" env update.

Definition create_result (body : TestResultIn.t) (_ : Document) (env : Env)
  : Handler Response :=
  let doc := TestResultIn.model_dump body in
  let doc := stamp_created env doc in
  insert_and_serialize Ctestresult env doc.

Definition list_results (_ : Document) : Handler Response :=
  db_list Ctestresult "created_at" (-1) 200.

Definition update_result (result_id : string) (update : Document)
  (_ : Document) (env : Env) : Handler Response :=
  set_and_fetch Ctestresult result_id "Result not found" env update.

(** *** Routing: the role-gated operations *)

Inductive Operation :=
| RegisterUser (payload : UserCreate.t)
| CreatePatient (body : PatientIn.t)
| ListPatients
| GetPatient (patient_id : string)
| UpdatePatient (patient_id : string) (body : PatientIn.t)
| DeletePatient (patient_id : string)
| CreateTest (body : TestCatalogIn.t)
| ListTests
| UpdateTest (test_id : string) (body : TestCatalogIn.t)
| DeleteTest (test_id : string)
| CreateReferral (body : ReferralIn.t)
| ListReferrals
| UpdateReferral (ref_id : string) (update : Document)
| CreateResult (body : TestResultIn.t)
| ListResults
| UpdateResult (result_id : string) (update : Document).

(** The roles each handler names in its [Depends(require_roles(...))]. *)
Definition roles_of (op : Operation) : list string :=
  match op with
  | RegisterUser _ => ["admin"]
  | CreatePatient _ => ["admin"; "hospital_staff"]
  | ListPatients => ["admin"; "hospital_staff"; "lab_tech"; "viewer"]
  | GetPatient _ => ["admin"; "hospital_staff"; "lab_tech"; "viewer"]
  | UpdatePatient _ _ => ["admin"; "hospital_staff"]
  | DeletePatient _ => ["admin"]
  | CreateTest _ => ["admin"; "lab_tech"]
  | ListTests => ["admin"; "hospital_staff"; "lab_tech"; "viewer"]
  | UpdateTest _ _ => ["admin"; "lab_tech"]
  | DeleteTest _ => ["admin"]
  | CreateReferral _ => ["admin"; "hospital_staff"]
  | ListReferrals => ["admin"; "hospital_staff"; "lab_tech"; "viewer"]
  | UpdateReferral _ _ => ["admin"; "lab_tech"]
  | CreateResult _ => ["admin"; "lab_tech"]
  | ListResults => ["admin"; "hospital_staff"; "lab_tech"; "viewer"]
  | UpdateResult _ _ => ["admin"; "lab_tech"]
  end.

(** The handler function of an operation, applied to the resolved user. *)
Definition call (op : Operation) (current_user : Document) (env : Env)
  : Handler Response :=
  match op with
  | RegisterUser payload => register_user payload current_user env
  | CreatePatient body => create_patient body current_user env
  | ListPatients => list_patients current_user
  | GetPatient patient_id => get_patient patient_id current_user
  | UpdatePatient patient_id body =>
      update_patient patient_id body current_user env
  | DeletePatient patient_id => delete_patient patient_id current_user
  | CreateTest body => create_test body current_user env
  | ListTests => list_tests current_user
  | UpdateTest test_id body => update_test test_id body current_user env
  | DeleteTest test_id => delete_test test_id current_user
  | CreateReferral body => create_referral body current_user env
  | ListReferrals => list_referrals current_user
  | UpdateReferral ref_id update =>
      update_referral ref_id update current_user env
  | CreateResult body => create_result body current_user env
  | ListResults => list_results current_user
  | UpdateResult result_id update =>
      update_result result_id update current_user env
  end.

(** A protected request: the dependency is resolved from the bearer token,
    then the handler runs. *)
Definition handle (op : Operation) (token : string) (env : Env)
  : Handler Response :=
  let* current_user := require_roles (roles_of op) token env in
  call op current_user env.

(** The allowed-role table of the specification (section 4.4), by class of
    operation. *)
Definition spec_allowed_roles (op : Operation) : list string :=
  match op with
  | RegisterUser _ => ["admin"]
  | CreatePatient _ | UpdatePatient _ _ => ["admin"; "hospital_staff"]
  | DeletePatient _ | DeleteTest _ => ["admin"]
  | ListPatients | GetPatient _ | ListTests | ListReferrals | ListResults =>
      ["admin"; "hospital_staff"; "lab_tech"; "viewer"]
  | CreateTest _ | UpdateTest _ _ => ["admin"; "lab_tech"]
  | CreateReferral _ => ["admin"; "hospital_staff"]
  | UpdateReferral _ _ | UpdateResult _ _ => ["admin"; "lab_tech"]
  | CreateResult _ => ["admin"; "lab_tech"]
  end.


(** *** Vocabulary of the properties *)

(** The status line the framework answers with: the code of an
    [HTTPException], 500 for any other exception that leaves a handler. *)
Definition http_status {A} (r : Result A) : Z :=
  match r with
  | Return _ => 200
  | Raise (HTTPException status_code _ _) => status_code
  | Raise _ => 500
  end.

(** The path identifier of the operations that take one. *)
Definition path_id (op : Operation) : option string :=
  match op with
  | GetPatient id | UpdatePatient id _ | DeletePatient id
  | UpdateTest id _ | DeleteTest id
  | UpdateReferral id _ | UpdateResult id _ => Some id
  | _ => None
  end.

(** For the four update operations: the collection, the path identifier,
    the document handed to [$set] before it is stamped, and the detail of
    the 404. *)
Definition update_target (op : Operation)
  : option (CollName * string * Document * string) :=
  match op with
  | UpdatePatient id body =>
      Some (Cpatient, id, PatientIn.model_dump body, "Patient not found")
  | UpdateTest id body =>
      Some (Ctestcatalog, id, TestCatalogIn.model_dump body,
            "Test not found")
  | UpdateReferral id update =>
      Some (Creferral, id, update, "Referral not found")
  | UpdateResult id update =>
      Some (Ctestresult, id, update, "Result not found")
  | _ => None
  end.

(** The claims a token carries once its signature is accepted, before any
    claim is validated. *)
Definition token_claims (token : string) : option Document :=
  match jws_verify token SECRET_KEY with
  | Some payload =>
      match json_loads payload with
      | Some (VDict kvs) => Some (dict_of_pairs kvs)
      | _ => None
      end
  | None => None
  end.

(** The causes for which access resolution answers 401.  The last two are
    stated for a subject that parses as a store key: the subject is parsed
    outside the [try], and one that does not parse is no cause of a 401. *)
Inductive Unauthorized_cause (token : string) (env : Env) (db : DB)
  : Prop :=
| bad_signature :
    jws_verify token SECRET_KEY = None →
    Unauthorized_cause token env db
| malformed_payload :
    (token_claims token = None
     ∨ ∃ claims, token_claims token = Some claims
                 ∧ (is_none (py_get claims "sub") = true
                    ∨ is_none (py_get claims "role") = true)) →
    Unauthorized_cause token env db
| expired (claims : Document) (exp : Z) :
    token_claims token = Some claims →
    claims !! "exp" = Some (VInt exp) →
    exp < timegm (clock_auth env) →
    Unauthorized_cause token env db
| user_gone (claims : Document) (sub : string) (oid : ObjectId) :
    jwt_decode token SECRET_KEY (timegm (clock_auth env)) = Some claims →
    claims !! "sub" = Some (VStr sub) →
    ObjectId_of_str sub = Some oid →
    find_one (FId oid) (coll Cuser db) = None →
    Unauthorized_cause token env db
| user_inactive (claims : Document) (sub : string) (oid : ObjectId)
    (u : Document) :
    jwt_decode token SECRET_KEY (timegm (clock_auth env)) = Some claims →
    claims !! "sub" = Some (VStr sub) →
    ObjectId_of_str sub = Some oid →
    find_one (FId oid) (coll Cuser db) = Some u →
    u !! "is_active" = Some (VBool false) →
    Unauthorized_cause token env db.

(** The fields of the two input models that are dumped whole. *)
Definition patient_fields : gset string :=
  list_to_set ["first_name"; "last_name"; "date_of_birth"; "gender";
               "phone"; "email"; "hospital_id"].

Definition testcatalog_fields : gset string :=
  list_to_set ["code"; "name"; "description"; "sample_type"; "price";
               "tat_hours"].

(** The number of admin users. *)
Definition admin_count (db : DB) : nat :=
  count_documents (FStr "role" "admin") (coll Cuser db).

(** The collection an operation works on. *)
Definition collection_of (op : Operation) : CollName :=
  match op with
  | RegisterUser _ => Cuser
  | CreatePatient _ | ListPatients | GetPatient _ | UpdatePatient _ _
  | DeletePatient _ => Cpatient
  | CreateTest _ | ListTests | UpdateTest _ _ | DeleteTest _ => Ctestcatalog
  | CreateReferral _ | ListReferrals | UpdateReferral _ _ => Creferral
  | CreateResult _ | ListResults | UpdateResult _ _ => Ctestresult
  end.

(** The operations that only read. *)
Definition is_read (op : Operation) : bool :=
  match op with
  | ListPatients | GetPatient _ | ListTests | ListReferrals | ListResults =>
      true
  | _ => false
  end.

(** For the listings: the collection and the cap of [limit]. *)
Definition list_target (op : Operation) : option (CollName * nat) :=
  match op with
  | ListPatients => Some (Cpatient, 200%nat)
  | ListTests => Some (Ctestcatalog, 500%nat)
  | ListReferrals => Some (Creferral, 200%nat)
  | ListResults => Some (Ctestresult, 200%nat)
  | _ => None
  end.

(** For the four create operations: the collection and the document the
    handler has built when it reaches the stamp. *)
Definition create_target (op : Operation) (current_user : Document)
  : option (CollName * Document) :=
  match op with
  | CreatePatient body => Some (Cpatient, PatientIn.model_dump body)
  | CreateTest body => Some (Ctestcatalog, TestCatalogIn.model_dump body)
  | CreateReferral body =>
      Some (Creferral,
            setdefault "ordered_by" (py_get current_user "id")
              (setdefault "status" (VStr "pending")
                 (ReferralIn.model_dump body)))
  | CreateResult body => Some (Ctestresult, TestResultIn.model_dump body)
  | _ => None
  end.

(** For the two delete operations: the collection and the identifier. *)
Definition delete_target (op : Operation) : option (CollName * string) :=
  match op with
  | DeletePatient id => Some (Cpatient, id)
  | DeleteTest id => Some (Ctestcatalog, id)
  | _ => None
  end.

(** The keys of the public projection of a user. *)
Definition public_fields : gset string :=
  list_to_set ["id"; "name"; "email"; "role"; "is_active"].

(** No two users share an email. *)
Definition unique_emails (db : DB) : Prop :=
  ∀ email, (count_documents (FStr "email" email) (coll Cuser db) ≤ 1)%nat.

(** An identifier as the driver generates it: twelve bytes. *)
Definition wf_ObjectId (o : ObjectId) : Prop :=
  List.length o = 12%nat ∧ Forall (λ b, (b < 256)%N) o.

(** What [serialize_doc] does to one value. *)
Definition to_iso (v : Value) : Value :=
  match v with VDate t => VStr (isoformat t) | _ => v end.

Definition is_date (v : Value) : bool :=
  match v with VDate _ => true | _ => false end.

(** [GET /auth/me]: the dependency is access resolution alone, with no role
    check. *)
Definition auth_me (token : string) (env : Env) : Handler Response :=
  let* current_user := get_current_user token env in
  me current_user.

(** The user document that registration and seeding build. *)
Definition user_document (name email password_hash role : string)
  (created_at updated_at : Z) : Document :=
  <["name" := VStr name]>
  (<["email" := VStr email]>
  (<["password_hash" := VStr password_hash]>
  (<["role" := VStr role]>
  (<["is_active" := VBool true]>
  (<["created_at" := VDate created_at]>
  (<["updated_at" := VDate updated_at]> ∅)))))).

(** The public projection registration answers with. *)
Definition public_user (id name email role : string) : Document :=
  <["id" := VStr id]> (<["name" := VStr name]> (<["email" := VStr email]>
  (<["role" := VStr role]> (<["is_active" := VBool true]> ∅)))).

(** The answer of a successful login. *)
Definition token_response (access_token : string) : Document :=
  <["access_token" := VStr access_token]>
  (<["token_type" := VStr "bearer"]> ∅).

(** ** Properties *)

(** *** The store *)

Lemma coll_set_coll_eq name c db : coll name (set_coll name c db) = c.
Proof. by destruct name. Qed.

Lemma coll_set_coll_ne name name' c db :
  name ≠ name' → coll name' (set_coll name c db) = coll name' db.
Proof. by destruct name, name'. Qed.

Lemma set_coll_coll name db : set_coll name (coll name db) db = db.
Proof. by destruct name, db. Qed.

Lemma find_one_Some q c d :
  find_one q c = Some d → matches q d = true ∧ d ∈ c.
Proof.
  induction c as [|x c IH]; simpl; [done|].
  destruct (matches q x) eqn:Hm.
  - intros [= <-]. split; [done|]. apply list_elem_of_here.
  - intros H. destruct (IH H) as [? ?]. split; [done|].
    by apply list_elem_of_further.
Qed.

Lemma find_one_None q c :
  find_one q c = None ↔ ∀ d, d ∈ c → matches q d = false.
Proof.
  induction c as [|x c IH]; simpl.
  - split; [|done]. intros _ d Hd. by apply not_elem_of_nil in Hd.
  - destruct (matches q x) eqn:Hm.
    + split; [done|]. intros H. specialize (H x (list_elem_of_here _ _)).
      congruence.
    + rewrite IH. split.
      * intros H d [->|Hd]%elem_of_cons; auto.
      * intros H d Hd. apply H. by apply list_elem_of_further.
Qed.

Lemma update_one_no_match q set c :
  find_one q c = None → update_one q set c = c.
Proof.
  induction c as [|x c IH]; simpl; [done|].
  destruct (matches q x); [done|]. intros H. by rewrite IH.
Qed.

(** The first match splits the collection; [$set] rewrites that document
    and no other. *)
Lemma find_one_split q c d :
  find_one q c = Some d →
  ∃ c1 c2, c = (c1 ++ d :: c2)%list ∧ find_one q c1 = None.
Proof.
  induction c as [|x c IH]; simpl; [done|].
  destruct (matches q x) eqn:Hm.
  - intros [= <-]. by exists [], c.
  - intros H. destruct (IH H) as (c1 & c2 & -> & Hn).
    exists (x :: c1), c2. split; [done|]. simpl. by rewrite Hm.
Qed.

Lemma update_one_split q set c1 d c2 :
  find_one q c1 = None → matches q d = true →
  update_one q set (c1 ++ d :: c2)%list = (c1 ++ (set ∪ d) :: c2)%list.
Proof.
  induction c1 as [|x c1 IH]; simpl; intros Hn Hm.
  - by rewrite Hm.
  - destruct (matches q x); [done|]. by rewrite IH.
Qed.

Lemma find_one_app_first q c1 d c2 :
  find_one q c1 = None → matches q d = true →
  find_one q (c1 ++ d :: c2)%list = Some d.
Proof.
  induction c1 as [|x c1 IH]; simpl; intros Hn Hm.
  - by rewrite Hm.
  - destruct (matches q x); [done|]. by apply IH.
Qed.

Lemma matches_doc_truthy q d :
  matches q d = true → doc_truthy (Some d) = true.
Proof.
  intros Hm. unfold doc_truthy.
  assert (∃ k v, d !! k = Some v) as (k & v & Hk).
  { destruct q as [o|k s]; simpl in Hm.
    - destruct (d !! "_id") eqn:E; [eauto|done].
    - destruct (d !! k) eqn:E; [eauto|done]. }
  rewrite bool_decide_eq_false_2; [done|].
  intros Hs%map_size_empty_iff. rewrite Hs in Hk.
  by rewrite lookup_empty in Hk.
Qed.

(** *** Access resolution *)

Lemma jwt_decode_claims token now claims :
  jwt_decode token SECRET_KEY now = Some claims →
  token_claims token = Some claims ∧ validate_exp claims now = true.
Proof.
  unfold jwt_decode, token_claims.
  destruct (jws_verify token SECRET_KEY) as [payload|]; [|done].
  destruct (json_loads payload) as [[]|]; try done.
  destruct (validate_exp _ now) eqn:He; simpl; [|done].
  destruct (validate_sub _ && jose_claims_ok _); [|done].
  by intros [= <-].
Qed.

Lemma jwt_decode_expired token now claims exp :
  token_claims token = Some claims →
  claims !! "exp" = Some (VInt exp) → exp < now →
  jwt_decode token SECRET_KEY now = None.
Proof.
  unfold jwt_decode, token_claims. intros Hc He Hlt.
  destruct (jws_verify token SECRET_KEY) as [payload|]; [|done].
  destruct (json_loads payload) as [[]|]; try done.
  injection Hc as ->. unfold validate_exp. rewrite He.
  by rewrite (proj2 (Z.ltb_lt exp now) Hlt).
Qed.

Lemma jwt_decode_no_claims token now :
  token_claims token = None → jwt_decode token SECRET_KEY now = None.
Proof.
  unfold jwt_decode, token_claims.
  destruct (jws_verify token SECRET_KEY) as [payload|]; [|done].
  by destruct (json_loads payload) as [[]|].
Qed.

(** Access resolution of a token whose claims decode, for a subject that
    parses: the outcome is decided by the user record alone. *)
Lemma get_current_user_resolved token env db claims sub oid :
  jwt_decode token SECRET_KEY (timegm (clock_auth env)) = Some claims →
  claims !! "sub" = Some (VStr sub) →
  is_none (py_get claims "role") = false →
  ObjectId_of_str sub = Some oid →
  get_current_user token env db =
    match find_one (FId oid) (coll Cuser db) with
    | Some u =>
        if truthy (py_get_default u "is_active" (VBool true))
        then (Return (serialize_doc u), db)
        else (Raise credentials_exception, db)
    | None => (Raise credentials_exception, db)
    end.
Proof.
  intros Hd Hs Hr Ho.
  assert (py_get claims "sub" = VStr sub) as Hsub.
  { unfold py_get. by rewrite Hs. }
  unfold get_current_user. rewrite Hd, Hsub, Hr. simpl.
  unfold bind, ObjectId_. rewrite Ho. simpl.
  destruct (find_one (FId oid) (coll Cuser db)) as [u|] eqn:Hf; [|done].
  apply find_one_Some in Hf as [Hm _].
  rewrite (matches_doc_truthy _ _ Hm). simpl.
  by destruct (truthy _).
Qed.

(** The subject is parsed outside the [try]: a token that decodes but whose
    subject is no ObjectId raises [InvalidId] instead of the 401. *)
Lemma get_current_user_unparsable_subject token env db claims sub :
  jwt_decode token SECRET_KEY (timegm (clock_auth env)) = Some claims →
  claims !! "sub" = Some (VStr sub) →
  is_none (py_get claims "role") = false →
  ObjectId_of_str sub = None →
  get_current_user token env db = (Raise (InvalidId sub), db).
Proof.
  intros Hd Hs Hr Ho.
  assert (py_get claims "sub" = VStr sub) as Hsub.
  { unfold py_get. by rewrite Hs. }
  unfold get_current_user. rewrite Hd, Hsub, Hr. simpl.
  unfold bind, ObjectId_. by rewrite Ho.
Qed.

Lemma get_current_user_db token env db :
  (get_current_user token env db).2 = db.
Proof.
  unfold get_current_user.
  destruct (jwt_decode _ _ _) as [claims|]; [|done].
  destruct (is_none _ || is_none _); [done|].
  unfold bind, ObjectId_of_value, ObjectId_.
  destruct (py_get claims "sub"); try done.
  - destruct (ObjectId_of_str s); [|done]. simpl.
    destruct (find_one _ _); [|done].
    by destruct (_ || _).
  - simpl. destruct (find_one _ _); [|done].
    by destruct (_ || _).
Qed.

(** Each of the causes makes access resolution answer 401 and leaves the
    store as it was. *)
Lemma unauthorized_causes_give_401 token env db :
  Unauthorized_cause token env db →
  get_current_user token env db = (Raise credentials_exception, db)
  ∧ http_status (get_current_user token env db).1 = 401.
Proof.
  intros Hc.
  assert (get_current_user token env db = (Raise credentials_exception, db))
    as ->; [|done].
  destruct Hc as [Hsig | Hmal | claims exp Hcl Hexp Hlt
                 | claims sub oid Hd Hs Ho Hf
                 | claims sub oid u Hd Hs Ho Hf Ha].
  - unfold get_current_user, jwt_decode. by rewrite Hsig.
  - destruct Hmal as [Hn | (claims & Hcl & Hmiss)].
    + unfold get_current_user. by rewrite jwt_decode_no_claims.
    + unfold get_current_user.
      destruct (jwt_decode _ _ _) as [claims'|] eqn:Hd; [|done].
      apply jwt_decode_claims in Hd as [Hcl' _].
      rewrite Hcl in Hcl'. injection Hcl' as <-.
      destruct Hmiss as [-> | ->]; [done|].
      by rewrite orb_true_r.
  - unfold get_current_user.
    by rewrite (jwt_decode_expired _ _ _ _ Hcl Hexp Hlt).
  - destruct (is_none (py_get claims "role")) eqn:Hr.
    + unfold get_current_user. rewrite Hd, Hr. by rewrite orb_true_r.
    + rewrite (get_current_user_resolved _ _ _ _ _ _ Hd Hs Hr Ho).
      by rewrite Hf.
  - destruct (is_none (py_get claims "role")) eqn:Hr.
    + unfold get_current_user. rewrite Hd, Hr. by rewrite orb_true_r.
    + rewrite (get_current_user_resolved _ _ _ _ _ _ Hd Hs Hr Ho).
      rewrite Hf. unfold py_get_default. by rewrite Ha.
Qed.

(** C2, as the code has it: access resolution answers 401 Unauthorized,
    and leaves the store as it was, whenever the signature of the bearer
    token is invalid, its payload is no JSON object or holds no subject or
    no role, the clock is past the expiry it encodes - whatever else the
    payload holds -, or, the subject parsing as a store key, the user it
    names is not in the store or has an active flag that is false.  A token
    that decodes but whose subject does not parse as a store key is not
    answered 401: [ObjectId(user_id)] stands outside the [try], the
    [InvalidId] it raises is not caught, and the framework answers 500; the
    store is unchanged there too. *)
Theorem access_resolution_is_401_unless_the_subject_does_not_parse
  token env db :
  (Unauthorized_cause token env db →
   get_current_user token env db = (Raise credentials_exception, db)
   ∧ http_status (get_current_user token env db).1 = 401)
  ∧ (∀ claims sub,
       jwt_decode token SECRET_KEY (timegm (clock_auth env)) = Some claims →
       claims !! "sub" = Some (VStr sub) →
       is_none (py_get claims "role") = false →
       ObjectId_of_str sub = None →
       get_current_user token env db = (Raise (InvalidId sub), db)
       ∧ http_status (get_current_user token env db).1 = 500).
Proof.
  split.
  - apply unauthorized_causes_give_401.
  - intros claims sub Hd Hs Hr Ho.
    by rewrite (get_current_user_unparsable_subject _ _ _ _ _ Hd Hs Hr Ho).
Qed.

(** C10: with a token that decodes to a subject and a role, a user document
    without any [is_active] field is resolved exactly like one whose flag
    is true - the serialized user is returned -, and a document whose flag
    is false is answered 401. *)
Theorem missing_is_active_counts_as_active token env db claims sub oid u :
  jwt_decode token SECRET_KEY (timegm (clock_auth env)) = Some claims →
  claims !! "sub" = Some (VStr sub) →
  is_none (py_get claims "role") = false →
  ObjectId_of_str sub = Some oid →
  find_one (FId oid) (coll Cuser db) = Some u →
  (u !! "is_active" = None ∨ u !! "is_active" = Some (VBool true) →
   get_current_user token env db = (Return (serialize_doc u), db))
  ∧ (u !! "is_active" = Some (VBool false) →
     get_current_user token env db = (Raise credentials_exception, db)).
Proof.
  intros Hd Hs Hr Ho Hf.
  rewrite (get_current_user_resolved _ _ _ _ _ _ Hd Hs Hr Ho), Hf.
  unfold py_get_default.
  split; [intros [-> | ->] | intros ->]; done.
Qed.

(** *** The role gate *)

Lemma roles_of_spec op : roles_of op = spec_allowed_roles op.
Proof. by destruct op. Qed.

Lemma require_roles_resolved roles token env db u :
  get_current_user token env db = (Return u, db) →
  require_roles roles token env db =
    if role_in (py_get u "role") roles then (Return u, db)
    else (Raise (HTTPException 403 "Insufficient permissions" []), db).
Proof.
  intros Hg. unfold require_roles, bind. rewrite Hg.
  by destruct (role_in _ _).
Qed.

Lemma handle_authorized op token env db u :
  require_roles (roles_of op) token env db = (Return u, db) →
  handle op token env db = call op u env db.
Proof. intros Hr. unfold handle, bind. by rewrite Hr. Qed.

(** C1: for every protected operation and every caller the token resolves
    to, the request is answered 403 Forbidden, the store untouched, when
    the caller's role is outside the allowed-role set the table of section
    4.4 gives the operation, and runs the handler of the operation with
    the resolved user when the role is in the set. *)
Theorem role_gate_follows_the_table op token env db u :
  get_current_user token env db = (Return u, db) →
  handle op token env db =
    if role_in (py_get u "role") (spec_allowed_roles op)
    then call op u env db
    else (Raise (HTTPException 403 "Insufficient permissions" []), db).
Proof.
  intros Hg. unfold handle, bind.
  rewrite (require_roles_resolved _ _ _ _ _ Hg), roles_of_spec.
  by destruct (role_in _ _).
Qed.

(** *** Identifiers that do not parse, identifiers that are absent *)

Lemma call_update op name id upd detail u env :
  update_target op = Some (name, id, upd, detail) →
  call op u env = set_and_fetch name id detail env upd.
Proof. destruct op; simpl; try done; by intros [= <- <- <- <-]. Qed.

Lemma call_malformed_id op id u env db :
  path_id op = Some id → ObjectId_of_str id = None →
  call op u env db = (Raise (InvalidId id), db).
Proof.
  intros Hp Hn.
  destruct op; simpl in Hp; try done; injection Hp as ->; simpl;
    unfold get_patient, update_patient, delete_patient, update_test,
      delete_test, update_referral, update_result, set_and_fetch,
      bind, ObjectId_;
    by rewrite Hn.
Qed.

(** C5, as the code has it: for every operation that takes a path
    identifier and every authorized caller, an identifier that does not
    parse as a store key raises [InvalidId], which no handler catches: the
    exception leaves the handler, the framework answers 500 - neither
    NotFound nor 400 -, and the store is unchanged. *)
Theorem malformed_id_is_not_caught op id token env db u :
  path_id op = Some id →
  ObjectId_of_str id = None →
  require_roles (roles_of op) token env db = (Return u, db) →
  handle op token env db = (Raise (InvalidId id), db)
  ∧ http_status (handle op token env db).1 = 500.
Proof.
  intros Hp Hn Hr.
  rewrite (handle_authorized _ _ _ _ _ Hr).
  by rewrite (call_malformed_id _ _ _ _ _ Hp Hn).
Qed.

Lemma set_and_fetch_absent name id detail env upd db oid :
  ObjectId_of_str id = Some oid →
  find_one (FId oid) (coll name db) = None →
  set_and_fetch name id detail env upd db = (Raise (not_found detail), db).
Proof.
  intros Ho Hf. unfold set_and_fetch, bind, ObjectId_. rewrite Ho. simpl.
  rewrite (update_one_no_match _ _ _ Hf), set_coll_coll.
  by rewrite Hf.
Qed.

(** C7: for each of the four resource types, an authorized update whose
    identifier parses but names no stored document is answered 404
    NotFound, and the store is left as it was. *)
Theorem update_of_absent_id_is_not_found
  op name id upd detail oid token env db u :
  update_target op = Some (name, id, upd, detail) →
  require_roles (roles_of op) token env db = (Return u, db) →
  ObjectId_of_str id = Some oid →
  find_one (FId oid) (coll name db) = None →
  handle op token env db = (Raise (HTTPException 404 detail []), db).
Proof.
  intros Ht Hr Ho Hf.
  rewrite (handle_authorized _ _ _ _ _ Hr).
  rewrite (call_update _ _ _ _ _ _ _ Ht).
  by rewrite (set_and_fetch_absent _ _ _ _ _ _ _ Ho Hf).
Qed.

(** *** Updates *)

Lemma dom_PatientIn_model_dump body :
  dom (PatientIn.model_dump body) = patient_fields.
Proof.
  unfold PatientIn.model_dump, patient_fields.
  rewrite !dom_insert_L, dom_empty_L. done.
Qed.

Lemma dom_TestCatalogIn_model_dump body :
  dom (TestCatalogIn.model_dump body) = testcatalog_fields.
Proof.
  unfold TestCatalogIn.model_dump, testcatalog_fields.
  rewrite !dom_insert_L, dom_empty_L. done.
Qed.

Lemma require_roles_db roles token env db :
  (require_roles roles token env db).2 = db.
Proof.
  unfold require_roles, bind.
  pose proof (get_current_user_db token env db) as H.
  destruct (get_current_user token env db) as [[u|e] db']; simpl in *;
    subst db'; [|done].
  by destruct (role_in _ _).
Qed.

(** What an update leaves in the store: the stamped document is merged
    into the first document of that identifier. *)
Lemma set_and_fetch_store name id detail env upd db oid :
  ObjectId_of_str id = Some oid →
  (set_and_fetch name id detail env upd db).2 =
    set_coll name
      (update_one (FId oid) (<["updated_at" := VDate (clock1 env)]> upd)
         (coll name db)) db.
Proof.
  intros Ho. unfold set_and_fetch, bind, ObjectId_. rewrite Ho. simpl.
  destruct (find_one _ _) as [d|]; [|done].
  by destruct (doc_truthy _).
Qed.

Lemma set_and_fetch_frame name name' id detail env upd db :
  name ≠ name' →
  coll name' (set_and_fetch name id detail env upd db).2 = coll name' db.
Proof.
  intros Hne. unfold set_and_fetch, bind, ObjectId_.
  destruct (ObjectId_of_str id) as [oid|]; [|done]. simpl.
  destruct (find_one _ _) as [d|]; [destruct (doc_truthy _)|]; simpl;
    by rewrite coll_set_coll_ne.
Qed.

Lemma stamped_lookup (upd d : Document) (t : Z) k :
  (<["updated_at" := VDate t]> upd ∪ d) !! k =
    if decide (k = "updated_at") then Some (VDate t)
    else match upd !! k with Some v => Some v | None => d !! k end.
Proof.
  rewrite lookup_union. case_decide as Hk.
  - subst k. rewrite lookup_insert_eq. by destruct (d !! "updated_at").
  - rewrite lookup_insert_ne by done.
    by destruct (upd !! k), (d !! k).
Qed.

(** C6, as the code has it: an update of an existing document of any of
    the four resource types rewrites that document alone; the stored
    document gets [updated_at] stamped with the time of the request, takes
    every field of the document handed to [$set], and keeps the prior
    value of every other field.  For Referral and TestResult the document
    handed to [$set] is the client's payload; for Patient and TestCatalog
    it is the dump of the whole input model, so that every field of the
    model is rewritten (an optional field the client left out becomes
    null) and only the fields outside the model keep their prior value. *)
Theorem update_merges_the_set_document
  op name id upd detail oid u env db c1 d c2 :
  update_target op = Some (name, id, upd, detail) →
  ObjectId_of_str id = Some oid →
  coll name db = (c1 ++ d :: c2)%list →
  find_one (FId oid) c1 = None →
  matches (FId oid) d = true →
  ∃ d',
    (call op u env db).2 = set_coll name (c1 ++ d' :: c2)%list db
    ∧ d' !! "updated_at" = Some (VDate (clock1 env))
    ∧ (∀ k v, k ≠ "updated_at" → upd !! k = Some v → d' !! k = Some v)
    ∧ (∀ k, k ≠ "updated_at" → upd !! k = None → d' !! k = d !! k)
    ∧ (name = Cpatient → dom upd = patient_fields)
    ∧ (name = Ctestcatalog → dom upd = testcatalog_fields).
Proof.
  intros Ht Ho Hc Hn Hm.
  exists (<["updated_at" := VDate (clock1 env)]> upd ∪ d).
  rewrite (call_update _ _ _ _ _ _ _ Ht).
  rewrite (set_and_fetch_store _ _ _ _ _ _ _ Ho), Hc.
  rewrite (update_one_split _ _ _ _ _ Hn Hm).
  split; [done|]. split.
  { rewrite stamped_lookup. by case_decide. }
  split.
  { intros k v Hk Hu. rewrite stamped_lookup, Hu. by case_decide. }
  split.
  { intros k Hk Hu. rewrite stamped_lookup, Hu. by case_decide. }
  split; intros ->; destruct op; simpl in Ht; try done;
    injection Ht as <- <- <-;
    [apply dom_PatientIn_model_dump | apply dom_TestCatalogIn_model_dump].
Qed.

(** C9: a request that updates a TestResult leaves the referral collection
    exactly as it was, whatever the request carries; and when the caller
    is authorized, the identifier names a stored result and the payload
    does not name [_id], the answer is the serialized stored result, a
    later read by that identifier finds it, and it holds every field of
    the payload (with [updated_at] stamped). *)
Theorem result_update_leaves_referrals_alone
  result_id upd token env db :
  let db' := (handle (UpdateResult result_id upd) token env db).2 in
  coll Creferral db' = coll Creferral db
  ∧ ∀ u oid d,
      require_roles ["admin"; "lab_tech"] token env db = (Return u, db) →
      ObjectId_of_str result_id = Some oid →
      find_one (FId oid) (coll Ctestresult db) = Some d →
      upd !! "_id" = None →
      ∃ d',
        (handle (UpdateResult result_id upd) token env db).1
          = Return (RDoc (serialize_doc d'))
        ∧ find_one (FId oid) (coll Ctestresult db') = Some d'
        ∧ d' !! "updated_at" = Some (VDate (clock1 env))
        ∧ (∀ k v, k ≠ "updated_at" → upd !! k = Some v →
                  d' !! k = Some v).
Proof.
  intros db'. subst db'. split.
  - unfold handle, bind.
    pose proof (require_roles_db (roles_of (UpdateResult result_id upd))
                  token env db) as Hdb.
    destruct (require_roles _ token env db) as [[u|e] db1]; simpl in Hdb;
      subst db1; [|done].
    simpl. unfold update_result. by apply set_and_fetch_frame.
  - intros u oid d Hr Ho Hf Hid.
    set (upd' := <["updated_at" := VDate (clock1 env)]> upd).
    exists (upd' ∪ d).
    assert (handle (UpdateResult result_id upd) token env db
            = call (UpdateResult result_id upd) u env db) as ->.
    { by apply handle_authorized. }
    simpl. unfold update_result.
    destruct (find_one_split _ _ _ Hf) as (c1 & c2 & Hc & Hn).
    destruct (find_one_Some _ _ _ Hf) as [Hm _].
    assert (matches (FId oid) (upd' ∪ d) = true) as Hm'.
    { simpl in *. subst upd'. rewrite stamped_lookup.
      case_decide; [done|]. by rewrite Hid. }
    assert (find_one (FId oid)
              (update_one (FId oid) upd' (coll Ctestresult db))
            = Some (upd' ∪ d)) as Hf'.
    { rewrite Hc, (update_one_split _ _ _ _ _ Hn Hm).
      by apply find_one_app_first. }
    split.
    { unfold set_and_fetch, bind, ObjectId_. rewrite Ho. simpl.
      fold upd'. rewrite coll_set_coll_eq, Hf'.
      by rewrite (matches_doc_truthy _ _ Hm'). }
    split.
    { rewrite (set_and_fetch_store _ _ _ _ _ _ _ Ho). fold upd'.
      by rewrite coll_set_coll_eq. }
    split.
    { subst upd'. rewrite stamped_lookup. by case_decide. }
    intros k v Hk Hu. subst upd'. rewrite stamped_lookup, Hu.
    by case_decide.
Qed.

(** *** Login *)

(** C3, as the code has it: a login with an unknown email and a login with
    a known email and a wrong password end alike, with the same status -
    400, not the 401 of Unauthorized -, the same generic message and no
    header, and neither touches the store. *)
Theorem login_failures_are_indistinguishable
  db env env' email1 password1 email2 password2 u :
  find_one (FStr "email" email1) (coll Cuser db) = None →
  find_one (FStr "email" email2) (coll Cuser db) = Some u →
  verify_password password2 (py_get_default u "password_hash" (VStr ""))
    = Return false →
  login email1 password1 env db
    = (Raise (HTTPException 400 "Incorrect email or password" []), db)
  ∧ login email2 password2 env' db = login email1 password1 env db.
Proof.
  intros H1 H2 Hv.
  assert (login email1 password1 env db
          = (Raise (HTTPException 400 "Incorrect email or password" []),
             db)) as ->.
  { unfold login, bind, db_find_one. by rewrite H1. }
  split; [done|].
  unfold login, bind, db_find_one. rewrite H2.
  apply find_one_Some in H2 as [Hm _].
  rewrite (matches_doc_truthy _ _ Hm). simpl.
  unfold lift. by rewrite Hv.
Qed.

(** *** Referral creation *)

Lemma serialize_doc_lookup (doc : Document) o k :
  doc !! "_id" = Some (VOid o) → k ≠ "id" → k ≠ "_id" →
  serialize_doc doc !! k =
    (λ v, match v with VDate t => VStr (isoformat t) | _ => v end)
      <$> doc !! k.
Proof.
  intros Hid Hk Hk'. unfold serialize_doc.
  rewrite bool_decide_eq_false_2.
  2: { intros Hs%map_size_empty_iff. by rewrite Hs, lookup_empty in Hid. }
  unfold py_get. rewrite Hid. simpl.
  rewrite lookup_fmap, lookup_insert_ne by done.
  by rewrite lookup_delete_ne.
Qed.

(** C4, evaluated: the referral stored and the referral returned have
    status "pending", and their [ordered_by] is what the body carried:
    when the client left it out it is null, whoever the caller is, because
    the dump of the body already holds the key [ordered_by] and
    [setdefault] then writes nothing. *)
Theorem create_referral_keeps_ordered_by_of_body body current_user env db :
  ∃ doc,
    create_referral body current_user env db
      = (Return (RDoc (serialize_doc doc)),
         set_coll Creferral (coll Creferral db ++ [doc])%list db)
    ∧ doc !! "status" = Some (VStr "pending")
    ∧ doc !! "ordered_by" = Some (opt_str (ReferralIn.ordered_by body))
    ∧ serialize_doc doc !! "status" = Some (VStr "pending")
    ∧ serialize_doc doc !! "ordered_by"
        = Some (opt_str (ReferralIn.ordered_by body)).
Proof.
  set (doc0 :=
         stamp_created env
           (setdefault "ordered_by" (py_get current_user "id")
              (setdefault "status" (VStr "pending")
                 (ReferralIn.model_dump body)))).
  assert (doc0 !! "_id" = None) as Hid.
  { subst doc0. unfold stamp_created, dict_update, setdefault,
      ReferralIn.model_dump. by simplify_map_eq. }
  assert (doc0 !! "status" = Some (VStr "pending")) as Hst.
  { subst doc0. unfold stamp_created, dict_update, setdefault,
      ReferralIn.model_dump. by simplify_map_eq. }
  assert (doc0 !! "ordered_by"
          = Some (opt_str (ReferralIn.ordered_by body))) as Hob.
  { subst doc0. unfold stamp_created, dict_update, setdefault,
      ReferralIn.model_dump. by simplify_map_eq. }
  exists (<["_id" := VOid (fresh_id env)]> doc0).
  split.
  { unfold create_referral, insert_and_serialize, bind, db_insert_one,
      insert_one. fold doc0. by rewrite Hid. }
  rewrite !lookup_insert_ne by done.
  rewrite !(serialize_doc_lookup _ (fresh_id env))
    by (done || apply lookup_insert_eq).
  rewrite !lookup_insert_ne by done. rewrite Hst, Hob.
  repeat split; try done. by destruct (ReferralIn.ordered_by body).
Qed.

(** *** Seeding the first admin *)

Lemma count_documents_snoc q c d :
  count_documents q (c ++ [d])%list =
    (count_documents q c + if matches q d then 1 else 0)%nat.
Proof.
  unfold count_documents. rewrite filter_app, length_app. f_equal.
  rewrite filter_cons, filter_nil.
  destruct (matches q d); by case_decide.
Qed.

Lemma seed_admin_exists env db :
  (0 < admin_count db)%nat →
  seed_admin env db
    = (Return (RDoc {["message" := VStr "Admin exists"]}), db).
Proof.
  intros Hn. unfold seed_admin, bind, db_count_documents.
  fold (admin_count db).
  by rewrite (proj2 (Nat.ltb_lt 0 (admin_count db)) Hn).
Qed.

Lemma seed_admin_seeds env db :
  admin_count db = 0%nat →
  admin_count (seed_admin env db).2 = 1%nat.
Proof.
  intros Hn. unfold seed_admin, bind, db_count_documents.
  fold (admin_count db). rewrite Hn. simpl.
  unfold db_insert_one, insert_one.
  rewrite !lookup_insert_ne, lookup_empty by done. simpl.
  unfold py_index. rewrite lookup_insert_ne, lookup_insert_eq by done.
  simpl.
  unfold admin_count. rewrite coll_set_coll_eq, count_documents_snoc.
  fold (admin_count db). rewrite Hn. simpl.
  by rewrite !lookup_insert_ne, lookup_insert_eq by done.
Qed.

(** C8: seeding is idempotent.  When an admin user exists the call writes
    nothing and reports "Admin exists"; otherwise it leaves exactly one
    admin.  A second call in sequence is always the no-op, so two calls
    leave one admin where there was none and the admins there were
    otherwise: never two created. *)
Theorem seed_admin_twice_creates_at_most_one env1 env2 db :
  let r1 := seed_admin env1 db in
  let r2 := seed_admin env2 r1.2 in
  (if (0 <? admin_count db)%nat
   then r1 = (Return (RDoc {["message" := VStr "Admin exists"]}), db)
   else admin_count r1.2 = 1%nat)
  ∧ r2 = (Return (RDoc {["message" := VStr "Admin exists"]}), r1.2)
  ∧ admin_count r2.2 = Nat.max 1 (admin_count db).
Proof.
  intros r1 r2. subst r1 r2.
  destruct (0 <? admin_count db)%nat eqn:Hn.
  - apply Nat.ltb_lt in Hn.
    rewrite (seed_admin_exists env1 db Hn). simpl.
    rewrite (seed_admin_exists env2 db Hn). simpl.
    repeat split. lia.
  - apply Nat.ltb_ge in Hn.
    assert (admin_count db = 0%nat) as H0 by lia.
    pose proof (seed_admin_seeds env1 db H0) as H1.
    rewrite (seed_admin_exists env2 (seed_admin env1 db).2)
      by (rewrite H1; lia).
    simpl. rewrite H1, H0. done.
Qed.

(** *** Serialization *)

Lemma to_iso_idemp v : to_iso (to_iso v) = to_iso v.
Proof. by destruct v. Qed.

Lemma to_iso_not_date v : is_date (to_iso v) = false.
Proof. by destruct v. Qed.

Lemma to_iso_falsy v : truthy v = false → to_iso v = v.
Proof. by destruct v. Qed.

(** The serialized document, spelled with [to_iso]. *)
Lemma serialize_doc_unfold doc :
  serialize_doc doc =
    if bool_decide (size doc = 0%nat) then doc
    else to_iso <$>
           (if truthy (py_get doc "_id")
            then <["id" := VStr (py_str (py_get doc "_id"))]>
                   (delete "_id" doc)
            else doc).
Proof. done. Qed.

Lemma serialize_doc_no_date doc k v :
  serialize_doc doc !! k = Some v → is_date v = false.
Proof.
  rewrite serialize_doc_unfold. case_bool_decide as Hs.
  - apply map_size_empty_iff in Hs. subst doc. by rewrite lookup_empty.
  - rewrite lookup_fmap. intros Hv.
    apply fmap_Some in Hv as (w & _ & ->). apply to_iso_not_date.
Qed.

Lemma serialize_doc_of_stored_document_aux doc o :
  doc !! "_id" = Some (VOid o) →
  serialize_doc doc !! "id" = Some (VStr (str_of_ObjectId o))
  ∧ (∀ k, k ≠ "id" → k ≠ "_id" →
          serialize_doc doc !! k = to_iso <$> doc !! k).
Proof.
  intros Hid.
  assert (size doc ≠ 0%nat) as Hs.
  { intros Hs%map_size_empty_iff. by rewrite Hs, lookup_empty in Hid. }
  split.
  - rewrite serialize_doc_unfold, bool_decide_eq_false_2 by done.
    unfold py_get. rewrite Hid. simpl.
    by rewrite lookup_fmap, lookup_insert_eq.
  - intros k Hk Hk'. by apply (serialize_doc_lookup _ o).
Qed.

(** X1: the serialization of a stored document (one whose [_id] is an
    ObjectId) carries the identifier as the hexadecimal string [id], has no
    [_id] any more - an [id] field the document had is overwritten -, holds
    no datetime at top level, and keeps every other field, datetimes turned
    into their ISO text. *)
Theorem serialize_doc_of_stored_document doc o :
  doc !! "_id" = Some (VOid o) →
  serialize_doc doc !! "id" = Some (VStr (str_of_ObjectId o))
  ∧ serialize_doc doc !! "_id" = None
  ∧ (∀ k v, serialize_doc doc !! k = Some v → is_date v = false)
  ∧ (∀ k, k ≠ "id" → k ≠ "_id" →
          serialize_doc doc !! k = to_iso <$> doc !! k).
Proof.
  intros Hid.
  assert (size doc ≠ 0%nat) as Hs.
  { intros Hs%map_size_empty_iff. by rewrite Hs, lookup_empty in Hid. }
  split; [|split; [|split]].
  - rewrite serialize_doc_unfold, bool_decide_eq_false_2 by done.
    unfold py_get. rewrite Hid. simpl.
    by rewrite lookup_fmap, lookup_insert_eq.
  - rewrite serialize_doc_unfold, bool_decide_eq_false_2 by done.
    unfold py_get. rewrite Hid. simpl.
    by rewrite lookup_fmap, lookup_insert_ne, lookup_delete_eq.
  - apply serialize_doc_no_date.
  - intros k Hk Hk'. by apply (serialize_doc_lookup _ o).
Qed.

(** X2: serializing is idempotent: a document that has been serialized is
    left as it is by a second pass. *)
Theorem serialize_doc_idempotent doc :
  serialize_doc (serialize_doc doc) = serialize_doc doc.
Proof.
  rewrite (serialize_doc_unfold doc). case_bool_decide as Hs.
  { rewrite serialize_doc_unfold. by rewrite bool_decide_eq_true_2. }
  set (d0 := if truthy (py_get doc "_id")
             then <["id" := VStr (py_str (py_get doc "_id"))]>
                    (delete "_id" doc)
             else doc).
  assert (truthy (py_get (to_iso <$> d0) "_id") = false) as Hf.
  { subst d0. destruct (truthy (py_get doc "_id")) eqn:Ht;
      unfold py_get in *; rewrite lookup_fmap.
    - by rewrite lookup_insert_ne, lookup_delete_eq.
    - destruct (doc !! "_id") as [v|]; [|done]. simpl in *.
      by rewrite (to_iso_falsy _ Ht). }
  rewrite serialize_doc_unfold. rewrite Hf.
  case_bool_decide; [done|].
  rewrite <- map_fmap_compose. apply map_fmap_ext.
  intros k v _. apply to_iso_idemp.
Qed.

(** *** What a request may write *)

Lemma insert_and_serialize_frame name name' env doc db :
  name ≠ name' →
  coll name' (insert_and_serialize name env doc db).2 = coll name' db.
Proof.
  intros Hne. unfold insert_and_serialize, bind, db_insert_one, insert_one.
  destruct (doc !! "_id"); simpl; by rewrite coll_set_coll_ne.
Qed.

Lemma db_list_store name key direction n db :
  (db_list name key direction n db).2 = db.
Proof. done. Qed.

Lemma get_patient_store patient_id u db :
  (get_patient patient_id u db).2 = db.
Proof.
  unfold get_patient, bind, ObjectId_.
  destruct (ObjectId_of_str patient_id); [|done]. simpl.
  destruct (find_one _ _); [|done]. by destruct (doc_truthy _).
Qed.

Lemma delete_frame name name' id db :
  name ≠ name' →
  coll name'
    ((let* oid := ObjectId_ id in
      do* db_delete_one name (FId oid) in
      ret (RDoc {["ok" := VBool true]})) db).2 = coll name' db.
Proof.
  intros Hne. unfold bind, ObjectId_.
  destruct (ObjectId_of_str id); [|done]. simpl.
  by rewrite coll_set_coll_ne.
Qed.

Lemma register_user_frame payload u env db name :
  name ≠ Cuser →
  coll name (register_user payload u env db).2 = coll name db.
Proof.
  intros Hne. unfold register_user, bind, db_find_one.
  destruct (doc_truthy _); [done|].
  unfold db_insert_one, insert_one.
  rewrite !lookup_insert_ne, lookup_empty by done. simpl.
  unfold lift.
  repeat (destruct (py_index _ _); simpl; [|by rewrite coll_set_coll_ne]).
  by rewrite coll_set_coll_ne.
Qed.

Lemma call_frame op u env db name :
  name ≠ collection_of op →
  coll name (call op u env db).2 = coll name db.
Proof.
  intros Hne. destruct op; simpl in *;
    unfold create_patient, list_patients, update_patient, delete_patient,
      create_test, list_tests, update_test, delete_test, create_referral,
      list_referrals, update_referral, create_result, list_results,
      update_result;
    cbv zeta;
    first
      [ by apply register_user_frame
      | by apply insert_and_serialize_frame
      | by apply set_and_fetch_frame
      | by apply delete_frame
      | by rewrite get_patient_store
      | by rewrite db_list_store
      | done ].
Qed.

(** X3: a request writes at most the collection of its operation: whatever
    the token, the body and the outcome, every other collection is after
    the request what it was before.  Users are written by registration
    alone. *)
Theorem request_writes_its_own_collection_only op token env db name :
  name ≠ collection_of op →
  coll name (handle op token env db).2 = coll name db.
Proof.
  intros Hne. unfold handle, bind.
  pose proof (require_roles_db (roles_of op) token env db) as Hdb.
  destruct (require_roles _ token env db) as [[u|e] db1]; simpl in Hdb;
    subst db1; [|done].
  by apply call_frame.
Qed.

(** X4: the listings and the read of one patient never write: the database
    after such a request is the database before it, whatever the outcome. *)
Theorem reads_leave_the_database_unchanged op token env db :
  is_read op = true →
  (handle op token env db).2 = db.
Proof.
  intros Hr. unfold handle, bind.
  pose proof (require_roles_db (roles_of op) token env db) as Hdb.
  destruct (require_roles _ token env db) as [[u|e] db1]; simpl in Hdb;
    subst db1; [|done].
  destruct op; simpl in Hr; try done; simpl;
    unfold list_patients, list_tests, list_referrals, list_results;
    by rewrite ?get_patient_store, ?db_list_store.
Qed.

Lemma jwt_decode_sub token now claims :
  jwt_decode token SECRET_KEY now = Some claims →
  validate_sub claims = true.
Proof.
  unfold jwt_decode.
  destruct (jws_verify token SECRET_KEY) as [payload|]; [|done].
  destruct (json_loads payload) as [[]|]; try done.
  destruct (validate_exp _ now); simpl; [|done].
  destruct (validate_sub _) eqn:Hs; simpl; [|done].
  destruct (jose_claims_ok _); [|done]. by intros [= <-].
Qed.

Lemma get_current_user_failures token env db e :
  (get_current_user token env db).1 = Raise e →
  e = credentials_exception ∨ ∃ sub, e = InvalidId sub.
Proof.
  unfold get_current_user.
  destruct (jwt_decode _ _ _) as [claims|] eqn:Hd;
    [|simpl; intros [= <-]; by left].
  apply jwt_decode_sub in Hd. unfold validate_sub in Hd.
  unfold py_get at 1 3.
  destruct (claims !! "sub") as [v|]; [|simpl; intros [= <-]; by left].
  destruct v; try done; simpl.
  destruct (is_none (py_get claims "role"));
    [simpl; intros [= <-]; by left|].
  unfold bind, ObjectId_.
  destruct (ObjectId_of_str s); simpl; [|intros [= <-]; right; eauto].
  destruct (find_one _ _); [|simpl; intros [= <-]; by left].
  destruct (_ || _); simpl; [intros [= <-]; by left|done].
Qed.

(** X5: the gate fails in three ways only - the 401 of access resolution,
    the 403 of the role check, or the [InvalidId] of a token whose subject
    does not parse -, and when it fails the handler does not run: the
    request ends with that exception and the database is unchanged. *)
Theorem refused_requests_do_nothing op token env db e :
  (require_roles (roles_of op) token env db).1 = Raise e →
  handle op token env db = (Raise e, db)
  ∧ (e = credentials_exception
     ∨ e = HTTPException 403 "Insufficient permissions" []
     ∨ ∃ sub, e = InvalidId sub).
Proof.
  intros Hr. unfold handle, bind.
  pose proof (require_roles_db (roles_of op) token env db) as Hdb.
  destruct (require_roles (roles_of op) token env db) as [[u|e'] db1] eqn:Hq;
    simpl in *; subst db1; [done|]. injection Hr as ->.
  split; [done|].
  unfold require_roles, bind in Hq.
  pose proof (get_current_user_failures token env db) as Hg.
  destruct (get_current_user token env db) as [[u|e'] db1]; simpl in *.
  - destruct (role_in _ _); simpl in Hq; [done|].
    injection Hq as <- _. right. by left.
  - injection Hq as <- _. destruct (Hg e' eq_refl) as [->|?]; auto.
Qed.

(** *** Listings *)

Lemma insert_sorted_perm le d l : insert_sorted le d l ≡ₚ d :: l.
Proof.
  induction l as [|x l IH]; simpl; [done|].
  destruct (le d x); [done|]. rewrite IH. apply Permutation_swap.
Qed.

Lemma sort_by_perm le l : sort_by le l ≡ₚ l.
Proof.
  induction l as [|x l IH]; simpl; [done|].
  unfold sort_by in *. simpl. by rewrite insert_sorted_perm, IH.
Qed.

(** X6: a listing answers with at most its cap of documents - 200 patients,
    referrals or results, 500 tests - and exactly that many when the
    collection holds more; every document of the answer is the serialization
    of a stored one, and the database is unchanged. *)
Theorem listings_are_capped op name cap token env db u :
  list_target op = Some (name, cap) →
  require_roles (roles_of op) token env db = (Return u, db) →
  ∃ docs,
    handle op token env db = (Return (RList docs), db)
    ∧ List.length docs = Nat.min cap (List.length (coll name db))
    ∧ ∀ d, d ∈ docs → ∃ d0, d0 ∈ coll name db ∧ d = serialize_doc d0.
Proof.
  intros Ht Hr. rewrite (handle_authorized _ _ _ _ _ Hr).
  assert (∃ key direction,
            call op u env db = db_list name key direction cap db)
    as (key & direction & ->).
  { destruct op; simpl in Ht; try done; injection Ht as <- <-;
      simpl; eauto. }
  unfold db_list. eexists. split; [done|]. split.
  - rewrite length_fmap, length_take.
    by rewrite (Permutation_length (sort_by_perm _ _)).
  - intros d (d0 & -> & Hd0)%list_elem_of_fmap.
    exists d0. split; [|done].
    apply elem_of_take in Hd0 as (i & Hi & _).
    apply list_elem_of_lookup_2 in Hi.
    by rewrite sort_by_perm in Hi.
Qed.

(** *** Identifiers: printing and parsing back *)

Lemma hexdigit_spec n :
  (n < 16)%N →
  is_space (hexdigit n) = false ∧ hexval (hexdigit n) = Some n.
Proof.
  intros Hn.
  assert (n ∈ [0; 1; 2; 3; 4; 5; 6; 7; 8; 9; 10; 11; 12; 13; 14; 15]%N)
    as Hin.
  { rewrite !elem_of_cons. lia. }
  rewrite !elem_of_cons in Hin.
  repeat (destruct Hin as [-> | Hin]; [by vm_compute|]).
  by apply not_elem_of_nil in Hin.
Qed.

Lemma fromhex_str_of_ObjectId o :
  Forall (λ b, (b < 256)%N) o → fromhex (str_of_ObjectId o) = Some o.
Proof.
  induction 1 as [|b o Hb _ IH]; [done|].
  assert (b / 16 < 16)%N as Hhi.
  { apply N.Div0.div_lt_upper_bound. lia. }
  assert (b mod 16 < 16)%N as Hlo by (apply N.mod_lt; lia).
  destruct (hexdigit_spec _ Hhi) as [Hs1 Hv1].
  destruct (hexdigit_spec _ Hlo) as [_ Hv2].
  cbn [str_of_ObjectId fromhex]. rewrite Hs1, Hv1, Hv2, IH. simpl.
  do 2 f_equal. rewrite (N.div_mod' b 16) at 3. lia.
Qed.

Lemma length_str_of_ObjectId o :
  String.length (str_of_ObjectId o) = (2 * List.length o)%nat.
Proof. induction o as [|b o IH]; simpl; [done|]. rewrite IH. lia. Qed.

(** An identifier of twelve bytes is parsed back from its string. *)
Lemma ObjectId_of_str_of_ObjectId o :
  wf_ObjectId o → ObjectId_of_str (str_of_ObjectId o) = Some o.
Proof.
  intros [Hl Hb]. unfold ObjectId_of_str.
  rewrite length_str_of_ObjectId, Hl. simpl.
  by apply fromhex_str_of_ObjectId.
Qed.

(** *** Store lemmas for insertion and deletion *)

Lemma find_one_None_count q c :
  find_one q c = None ↔ count_documents q c = 0%nat.
Proof.
  unfold count_documents. induction c as [|d c IH]; simpl; [done|].
  rewrite filter_cons. destruct (matches q d) eqn:Hm.
  - rewrite decide_True by done. simpl. split; [done|lia].
  - rewrite decide_False by done. apply IH.
Qed.

Lemma count_documents_le_length q c :
  (count_documents q c ≤ List.length c)%nat.
Proof. unfold count_documents. apply length_filter. Qed.

Lemma find_one_snoc_None q c d :
  find_one q c = None →
  find_one q (c ++ [d])%list = if matches q d then Some d else None.
Proof.
  induction c as [|x c IH]; simpl.
  - intros _. by destruct (matches q d).
  - destruct (matches q x); [done|]. apply IH.
Qed.

Lemma find_one_snoc_Some q c d d0 :
  find_one q c = Some d0 → find_one q (c ++ [d])%list = Some d0.
Proof.
  induction c as [|x c IH]; simpl; [done|].
  destruct (matches q x); [done|]. apply IH.
Qed.

Lemma delete_one_no_match q c :
  find_one q c = None → delete_one q c = c.
Proof.
  induction c as [|x c IH]; simpl; [done|].
  destruct (matches q x); [done|]. intros H. by rewrite IH.
Qed.

Lemma find_one_delete_one q c :
  (count_documents q c ≤ 1)%nat → find_one q (delete_one q c) = None.
Proof.
  induction c as [|x c IH]; simpl; [done|].
  unfold count_documents in *. rewrite filter_cons.
  destruct (matches q x) eqn:Hm.
  - rewrite decide_True by done. simpl. intros Hc.
    apply find_one_None_count. unfold count_documents. lia.
  - rewrite decide_False by done. simpl. rewrite Hm. apply IH.
Qed.

Lemma length_delete_one q c :
  List.length (delete_one q c) =
    (List.length c - match find_one q c with Some _ => 1 | None => 0 end)%nat.
Proof.
  induction c as [|x c IH]; simpl; [done|].
  destruct (matches q x); simpl; [lia|].
  rewrite IH. destruct (find_one q c) eqn:Hf; [|lia].
  apply find_one_Some in Hf as [_ Hin]. destruct c; [|simpl; lia].
  by apply not_elem_of_nil in Hin.
Qed.

(** *** The public projection of a user *)

Lemma me_projection cu db i n e r :
  cu !! "id" = Some i → cu !! "name" = Some n →
  cu !! "email" = Some e → cu !! "role" = Some r →
  me cu db =
    (Return (RDoc (<["id" := i]> (<["name" := n]> (<["email" := e]>
                  (<["role" := r]>
                  (<["is_active" :=
                       py_get_default cu "is_active" (VBool true)]> ∅)))))),
     db).
Proof.
  intros Hi Hn He Hr. unfold me, bind, lift, py_index.
  by rewrite Hi, Hn, He, Hr.
Qed.

Lemma me_missing cu db k :
  k ∈ ["id"; "name"; "email"; "role"] → cu !! k = None →
  me cu db = (Raise (OtherError "KeyError"), db).
Proof.
  intros Hk Hn. unfold me, bind, lift, py_index.
  destruct (cu !! "id") eqn:E1; simpl; [|done].
  destruct (cu !! "name") eqn:E2; simpl; [|done].
  destruct (cu !! "email") eqn:E3; simpl; [|done].
  destruct (cu !! "role") eqn:E4; simpl; [|done].
  rewrite !elem_of_cons in Hk.
  destruct Hk as [->|[->|[->|[->|Hk]]]]; try congruence.
  by apply not_elem_of_nil in Hk.
Qed.

Lemma dom_public (i n e r a : Value) :
  dom (<["id" := i]> (<["name" := n]> (<["email" := e]>
        (<["role" := r]> (<["is_active" := a]> (∅ : Document))))))
  = public_fields.
Proof. unfold public_fields. by rewrite !dom_insert_L, dom_empty_L. Qed.

(** X7: [GET /auth/me] for a token that resolves to a stored user with a
    name, an email and a role answers with the five public fields and no
    other - in particular not the password hash, which the resolved user
    carries -: the identifier as a string, the three fields as stored, and
    the active flag, true when the document has none. *)
Theorem me_answers_the_public_projection token env db user o n e r :
  get_current_user token env db = (Return (serialize_doc user), db) →
  user !! "_id" = Some (VOid o) →
  user !! "name" = Some n →
  user !! "email" = Some e →
  user !! "role" = Some r →
  ∃ resp,
    auth_me token env db = (Return (RDoc resp), db)
    ∧ dom resp = public_fields
    ∧ resp !! "password_hash" = None
    ∧ resp !! "id" = Some (VStr (str_of_ObjectId o))
    ∧ resp !! "name" = Some (to_iso n)
    ∧ resp !! "email" = Some (to_iso e)
    ∧ resp !! "role" = Some (to_iso r)
    ∧ resp !! "is_active"
        = Some (to_iso (py_get_default user "is_active" (VBool true))).
Proof.
  intros Hg Hid Hn He Hr.
  destruct (serialize_doc_of_stored_document_aux user o Hid)
    as (Hsid & Hsk).
  assert (∀ k v, k ≠ "id" → k ≠ "_id" → user !! k = Some v →
                 serialize_doc user !! k = Some (to_iso v)) as Hk.
  { intros k v ? ? Hv. by rewrite Hsk, Hv. }
  unfold auth_me, bind. rewrite Hg.
  rewrite (me_projection _ _ _ _ _ _ Hsid
             (Hk "name" n ltac:(done) ltac:(done) Hn)
             (Hk "email" e ltac:(done) ltac:(done) He)
             (Hk "role" r ltac:(done) ltac:(done) Hr)).
  eexists. split; [done|]. split; [apply dom_public|].
  rewrite !lookup_insert_ne by done. rewrite !lookup_insert_eq.
  rewrite lookup_empty. repeat split.
  unfold py_get_default. rewrite Hsk by done.
  by destruct (user !! "is_active").
Qed.

(** X8: when the stored user lacks the name, the email or the role,
    [GET /auth/me] fails with the unhandled [KeyError] of the subscript (a
    500), not with a client error. *)
Theorem me_of_incomplete_user_is_a_key_error token env db user o k :
  get_current_user token env db = (Return (serialize_doc user), db) →
  user !! "_id" = Some (VOid o) →
  k ∈ ["name"; "email"; "role"] →
  user !! k = None →
  auth_me token env db = (Raise (OtherError "KeyError"), db)
  ∧ http_status (auth_me token env db).1 = 500.
Proof.
  intros Hg Hid Hk Hn.
  assert (auth_me token env db = (Raise (OtherError "KeyError"), db))
    as ->; [|done].
  destruct (serialize_doc_of_stored_document_aux user o Hid) as (_ & Hsk).
  unfold auth_me, bind. rewrite Hg.
  rewrite !elem_of_cons in Hk.
  destruct Hk as [->|[->|[->|Hk]]];
    [ apply (me_missing _ _ "name") | apply (me_missing _ _ "email")
    | apply (me_missing _ _ "role") | by apply not_elem_of_nil in Hk ];
    first [ by (rewrite Hsk by done; rewrite Hn)
          | by repeat constructor ].
Qed.

(** *** Registration and login *)

Lemma user_document_lookup name email password_hash role created updated :
  let d := user_document name email password_hash role created updated in
  d !! "_id" = None ∧ d !! "name" = Some (VStr name)
  ∧ d !! "email" = Some (VStr email)
  ∧ d !! "password_hash" = Some (VStr password_hash)
  ∧ d !! "role" = Some (VStr role)
  ∧ d !! "is_active" = Some (VBool true).
Proof. unfold user_document. by simplify_map_eq. Qed.

Lemma register_user_fresh payload u env db :
  find_one (FStr "email" (UserCreate.email payload)) (coll Cuser db) = None →
  register_user payload u env db =
    (Return (RDoc (public_user (str_of_ObjectId (fresh_id env))
                     (UserCreate.name payload) (UserCreate.email payload)
                     (UserCreate.role payload))),
     set_coll Cuser
       (coll Cuser db ++
        [<["_id" := VOid (fresh_id env)]>
           (user_document (UserCreate.name payload)
              (UserCreate.email payload)
              (hash_password env (UserCreate.password payload))
              (UserCreate.role payload) (clock1 env) (clock2 env))])%list
       db).
Proof.
  intros Hf.
  set (ud := user_document (UserCreate.name payload)
               (UserCreate.email payload)
               (hash_password env (UserCreate.password payload))
               (UserCreate.role payload) (clock1 env) (clock2 env)).
  destruct (user_document_lookup (UserCreate.name payload)
              (UserCreate.email payload)
              (hash_password env (UserCreate.password payload))
              (UserCreate.role payload) (clock1 env) (clock2 env))
    as (Hid & Hn & He & _ & Hr & Ha).
  fold ud in Hid, Hn, He, Hr, Ha.
  set (doc := <["_id" := VOid (fresh_id env)]> ud).
  assert (doc !! "_id" = Some (VOid (fresh_id env))) as Hdid
    by apply lookup_insert_eq.
  destruct (serialize_doc_of_stored_document_aux doc _ Hdid) as (Hsid & Hsk).
  assert (∀ k v, k ≠ "id" → k ≠ "_id" → ud !! k = Some v →
                 serialize_doc doc !! k = Some (to_iso v)) as Hk.
  { intros k v ? ? Hv. rewrite Hsk by done. subst doc.
    by rewrite lookup_insert_ne, Hv. }
  transitivity (me (serialize_doc doc)
                  (set_coll Cuser (coll Cuser db ++ [doc])%list db)).
  { unfold register_user, bind, db_find_one. rewrite Hf. simpl.
    unfold db_insert_one, insert_one.
    by rewrite !lookup_insert_ne, lookup_empty by done. }
  rewrite (me_projection _ _ _ _ _ _ Hsid
             (Hk "name" _ ltac:(done) ltac:(done) Hn)
             (Hk "email" _ ltac:(done) ltac:(done) He)
             (Hk "role" _ ltac:(done) ltac:(done) Hr)).
  unfold py_get_default.
  by rewrite (Hk "is_active" _ ltac:(done) ltac:(done) Ha).
Qed.

Lemma register_user_refuses_a_known_email_aux payload u env db d :
  find_one (FStr "email" (UserCreate.email payload)) (coll Cuser db)
    = Some d →
  register_user payload u env db
    = (Raise (HTTPException 400 "Email already registered" []), db).
Proof.
  intros Hf. unfold register_user, bind, db_find_one. rewrite Hf.
  apply find_one_Some in Hf as [Hm _].
  by rewrite (matches_doc_truthy _ _ Hm).
Qed.

(** X9: registration under an email some user already has is answered 400
    "Email already registered" and writes nothing. *)
Theorem register_user_refuses_a_known_email payload u env db d :
  find_one (FStr "email" (UserCreate.email payload)) (coll Cuser db)
    = Some d →
  register_user payload u env db
    = (Raise (HTTPException 400 "Email already registered" []), db).
Proof.
  intros Hf. unfold register_user, bind, db_find_one. rewrite Hf.
  apply find_one_Some in Hf as [Hm _].
  by rewrite (matches_doc_truthy _ _ Hm).
Qed.

(** X10: registration under a new email appends one user document - the
    generated identifier, the fields of the payload, the hash of the
    password in place of the password, the active flag set, both time
    stamps - and answers with the public projection: five fields, the
    identifier as a string, and no password hash. *)
Theorem register_user_stores_an_active_user payload u env db :
  find_one (FStr "email" (UserCreate.email payload)) (coll Cuser db) = None →
  ∃ doc resp,
    register_user payload u env db
      = (Return (RDoc resp),
         set_coll Cuser (coll Cuser db ++ [doc])%list db)
    ∧ doc = <["_id" := VOid (fresh_id env)]>
              (user_document (UserCreate.name payload)
                 (UserCreate.email payload)
                 (pwd_context_hash (salt env) (UserCreate.password payload))
                 (UserCreate.role payload) (clock1 env) (clock2 env))
    ∧ resp = public_user (str_of_ObjectId (fresh_id env))
               (UserCreate.name payload) (UserCreate.email payload)
               (UserCreate.role payload)
    ∧ dom resp = public_fields
    ∧ resp !! "password_hash" = None.
Proof.
  intros Hf. eexists _, _. split; [by apply register_user_fresh|].
  split; [done|]. split; [done|]. split; [apply dom_public|].
  unfold public_user. by simplify_map_eq.
Qed.

(** X11: registration keeps emails unique: if no two stored users share an
    email before a registration, none do after it, whatever its outcome. *)
Theorem register_user_keeps_emails_unique payload u env db :
  unique_emails db →
  unique_emails (register_user payload u env db).2.
Proof.
  intros Hu.
  destruct (find_one (FStr "email" (UserCreate.email payload))
              (coll Cuser db)) as [d|] eqn:Hf.
  - by rewrite (register_user_refuses_a_known_email_aux _ _ _ _ _ Hf).
  - rewrite (register_user_fresh _ _ _ _ Hf). simpl.
    intros email. rewrite coll_set_coll_eq, count_documents_snoc.
    simpl. rewrite lookup_insert_ne by done.
    unfold user_document. rewrite lookup_insert_ne, lookup_insert_eq by done.
    case_bool_decide as He.
    + subst email. apply find_one_None_count in Hf. rewrite Hf. lia.
    + specialize (Hu email). lia.
Qed.

Lemma create_access_token_claims data env :
  create_access_token data env =
    jwt_encode (<["exp" := VDate (clock1 env + 43200000000)]> data)
      SECRET_KEY.
Proof.
  unfold create_access_token, dict_update.
  by rewrite <- insert_union_singleton_l.
Qed.

Lemma login_success email password env db u uid :
  find_one (FStr "email" email) (coll Cuser db) = Some u →
  verify_password password (py_get_default u "password_hash" (VStr ""))
    = Return true →
  u !! "_id" = Some uid →
  login email password env db =
    (Return (RDoc (token_response
                     (jwt_encode
                        (<["exp" := VDate (clock1 env + 43200000000)]>
                         (<["sub" := VStr (py_str uid)]>
                          (<["role" :=
                               py_get_default u "role" (VStr "viewer")]> ∅)))
                        SECRET_KEY))), db).
Proof.
  intros Hf Hv Hid. unfold login, bind, db_find_one. rewrite Hf.
  apply find_one_Some in Hf as [Hm _].
  rewrite (matches_doc_truthy _ _ Hm). simpl.
  unfold lift. rewrite Hv. simpl. unfold py_index. rewrite Hid. simpl.
  by rewrite create_access_token_claims.
Qed.

(** X12: a user who has just been registered can log in: with a password
    library that verifies the hashes it produces, the login with the
    registered email and password succeeds on the database registration
    left, and the claims it signs carry the new identifier as subject, the
    registered role, and an expiry twelve hours after the login. *)
Theorem registered_user_can_log_in payload u env env' db :
  find_one (FStr "email" (UserCreate.email payload)) (coll Cuser db) = None →
  pwd_context_verify (UserCreate.password payload)
    (VStr (pwd_context_hash (salt env) (UserCreate.password payload)))
    = Return true →
  login (UserCreate.email payload) (UserCreate.password payload) env'
    (register_user payload u env db).2
  = (Return (RDoc (token_response
                     (jwt_encode
                        (<["exp" := VDate (clock1 env' + 43200000000)]>
                         (<["sub" := VStr (str_of_ObjectId (fresh_id env))]>
                          (<["role" := VStr (UserCreate.role payload)]> ∅)))
                        SECRET_KEY))),
     (register_user payload u env db).2).
Proof.
  intros Hf Hv. rewrite (register_user_fresh _ _ _ _ Hf). simpl.
  set (doc := <["_id" := VOid (fresh_id env)]> _).
  destruct (user_document_lookup (UserCreate.name payload)
              (UserCreate.email payload)
              (hash_password env (UserCreate.password payload))
              (UserCreate.role payload) (clock1 env) (clock2 env))
    as (_ & _ & He & Hp & Hr & _).
  assert (doc !! "email" = Some (VStr (UserCreate.email payload))) as Hde.
  { subst doc. by rewrite lookup_insert_ne. }
  rewrite (login_success _ _ _ _ doc (VOid (fresh_id env))).
  - unfold py_get_default. subst doc.
    by rewrite lookup_insert_ne, Hr.
  - rewrite coll_set_coll_eq, (find_one_snoc_None _ _ _ Hf).
    simpl. rewrite Hde. by rewrite bool_decide_eq_true_2.
  - unfold verify_password, py_get_default. subst doc.
    by rewrite lookup_insert_ne, Hp.
  - subst doc. apply lookup_insert_eq.
Qed.

(** X13: the token a login returns resolves to the user who logged in: for
    an active user whose identifier has twelve bytes and is the first of
    that identifier in the collection, if the token library decodes the
    token to claims that carry the subject the login signed (and some
    role), access resolution with that token returns the serialized
    user. *)
Theorem login_token_resolves_to_the_user
  email password env env' db u o claims :
  let token :=
    jwt_encode
      (<["exp" := VDate (clock1 env + 43200000000)]>
       (<["sub" := VStr (str_of_ObjectId o)]>
        (<["role" := py_get_default u "role" (VStr "viewer")]> ∅)))
      SECRET_KEY in
  find_one (FStr "email" email) (coll Cuser db) = Some u →
  verify_password password (py_get_default u "password_hash" (VStr ""))
    = Return true →
  u !! "_id" = Some (VOid o) →
  wf_ObjectId o →
  find_one (FId o) (coll Cuser db) = Some u →
  truthy (py_get_default u "is_active" (VBool true)) = true →
  jwt_decode token SECRET_KEY (timegm (clock_auth env')) = Some claims →
  claims !! "sub" = Some (VStr (str_of_ObjectId o)) →
  is_none (py_get claims "role") = false →
  login email password env db = (Return (RDoc (token_response token)), db)
  ∧ get_current_user token env' db = (Return (serialize_doc u), db).
Proof.
  intros token Hf Hv Hid Hwf Hfo Ha Hd Hs Hr. split.
  - by rewrite (login_success _ _ _ _ _ _ Hf Hv Hid).
  - rewrite (get_current_user_resolved _ _ _ _ _ _ Hd Hs Hr
               (ObjectId_of_str_of_ObjectId _ Hwf)).
    by rewrite Hfo, Ha.
Qed.

Lemma get_current_user_by_subject token env db claims sub :
  jwt_decode token SECRET_KEY (timegm (clock_auth env)) = Some claims →
  claims !! "sub" = Some (VStr sub) →
  is_none (py_get claims "role") = false →
  get_current_user token env db =
    match ObjectId_of_str sub with
    | None => (Raise (InvalidId sub), db)
    | Some oid =>
        match find_one (FId oid) (coll Cuser db) with
        | Some u =>
            if truthy (py_get_default u "is_active" (VBool true))
            then (Return (serialize_doc u), db)
            else (Raise credentials_exception, db)
        | None => (Raise credentials_exception, db)
        end
    end.
Proof.
  intros Hd Hs Hr. destruct (ObjectId_of_str sub) as [oid|] eqn:Ho.
  - by apply (get_current_user_resolved _ _ _ claims sub).
  - by apply (get_current_user_unparsable_subject _ _ _ claims).
Qed.

(** X14: the role a token claims is never trusted: two tokens that decode
    to the same subject are served alike by every operation, whatever roles
    they claim - the role that is checked is the one of the stored user. *)
Theorem role_claim_is_not_trusted op token1 token2 env db claims1 claims2 sub :
  jwt_decode token1 SECRET_KEY (timegm (clock_auth env)) = Some claims1 →
  jwt_decode token2 SECRET_KEY (timegm (clock_auth env)) = Some claims2 →
  claims1 !! "sub" = Some (VStr sub) →
  claims2 !! "sub" = Some (VStr sub) →
  is_none (py_get claims1 "role") = false →
  is_none (py_get claims2 "role") = false →
  handle op token1 env db = handle op token2 env db.
Proof.
  intros Hd1 Hd2 Hs1 Hs2 Hr1 Hr2.
  unfold handle, require_roles, bind.
  rewrite (get_current_user_by_subject _ _ _ _ _ Hd1 Hs1 Hr1).
  by rewrite (get_current_user_by_subject _ _ _ _ _ Hd2 Hs2 Hr2).
Qed.

(** X15: a user whose document has no role, or a role that is no string,
    is refused every role-gated operation with 403, the store untouched. *)
Theorem user_without_role_is_forbidden_everything op token env db u :
  get_current_user token env db = (Return u, db) →
  (∀ r, u !! "role" ≠ Some (VStr r)) →
  handle op token env db
    = (Raise (HTTPException 403 "Insufficient permissions" []), db).
Proof.
  intros Hg Hn. unfold handle, bind.
  rewrite (require_roles_resolved _ _ _ _ _ Hg).
  assert (role_in (py_get u "role") (roles_of op) = false) as ->; [|done].
  unfold py_get. destruct (u !! "role") as [[]|] eqn:Hr; try done.
  by destruct (Hn s).
Qed.

(** *** Creation and deletion *)

Lemma stamp_created_lookup env doc k :
  stamp_created env doc !! k =
    if decide (k = "created_at") then Some (VDate (clock1 env))
    else if decide (k = "updated_at") then Some (VDate (clock2 env))
    else doc !! k.
Proof.
  unfold stamp_created, dict_update. rewrite lookup_union.
  repeat case_decide; subst; simplify_map_eq;
    by destruct (doc !! _).
Qed.

Lemma create_target_no_id op u name doc0 :
  create_target op u = Some (name, doc0) → doc0 !! "_id" = None.
Proof.
  destruct op; simpl; try done; intros [= <- <-];
    unfold setdefault, PatientIn.model_dump, TestCatalogIn.model_dump,
      ReferralIn.model_dump, TestResultIn.model_dump;
    by simplify_map_eq.
Qed.

Lemma call_create op u env db name doc0 :
  create_target op u = Some (name, doc0) →
  call op u env db =
    (Return (RDoc (serialize_doc
                     (<["_id" := VOid (fresh_id env)]>
                        (stamp_created env doc0)))),
     set_coll name
       (coll name db ++
        [<["_id" := VOid (fresh_id env)]> (stamp_created env doc0)])%list
       db).
Proof.
  intros Ht.
  assert (stamp_created env doc0 !! "_id" = None) as Hid.
  { rewrite stamp_created_lookup. repeat case_decide; try done.
    by apply (create_target_no_id op u name). }
  destruct op; simpl in Ht; try done; injection Ht as <- <-; simpl;
    unfold create_patient, create_test, create_referral, create_result,
      insert_and_serialize, bind, db_insert_one, insert_one;
    by rewrite Hid.
Qed.

(** X16: each of the four create handlers appends exactly one document to
    its collection: the document it built from the body, with the generated
    [_id] and with [created_at] and [updated_at] set to the two clock
    readings of the request; the answer is its serialization, which carries
    the identifier as the string [id]. *)
Theorem create_appends_the_stamped_document op u env db name doc0 :
  create_target op u = Some (name, doc0) →
  ∃ doc,
    call op u env db
      = (Return (RDoc (serialize_doc doc)),
         set_coll name (coll name db ++ [doc])%list db)
    ∧ doc !! "_id" = Some (VOid (fresh_id env))
    ∧ doc !! "created_at" = Some (VDate (clock1 env))
    ∧ doc !! "updated_at" = Some (VDate (clock2 env))
    ∧ (∀ k, k ≠ "_id" → k ≠ "created_at" → k ≠ "updated_at" →
            doc !! k = doc0 !! k)
    ∧ serialize_doc doc !! "id"
        = Some (VStr (str_of_ObjectId (fresh_id env))).
Proof.
  intros Ht. eexists. split; [by apply call_create|].
  split; [apply lookup_insert_eq|].
  split; [by rewrite lookup_insert_ne, stamp_created_lookup|].
  split; [by rewrite lookup_insert_ne, stamp_created_lookup|].
  split.
  - intros k ? ? ?. rewrite lookup_insert_ne, stamp_created_lookup by done.
    by rewrite !decide_False.
  - apply serialize_doc_of_stored_document_aux, lookup_insert_eq.
Qed.

(** X17: a patient that has just been created can be read back: when the
    generated identifier has twelve bytes and is not yet in the collection,
    [get_patient] with the [id] of the answer returns, on the database the
    creation left, the very document the creation answered with. *)
Theorem created_patient_is_read_back body u u' env db :
  wf_ObjectId (fresh_id env) →
  find_one (FId (fresh_id env)) (coll Cpatient db) = None →
  ∃ d db1,
    create_patient body u env db = (Return (RDoc d), db1)
    ∧ d !! "id" = Some (VStr (str_of_ObjectId (fresh_id env)))
    ∧ get_patient (str_of_ObjectId (fresh_id env)) u' db1
        = (Return (RDoc d), db1).
Proof.
  intros Hwf Hf.
  pose proof (call_create (CreatePatient body) u env db Cpatient
                (PatientIn.model_dump body) eq_refl) as Hc.
  simpl in Hc. eexists _, _. split; [exact Hc|]. split.
  - apply serialize_doc_of_stored_document_aux, lookup_insert_eq.
  - unfold get_patient, bind, ObjectId_.
    rewrite (ObjectId_of_str_of_ObjectId _ Hwf). simpl.
    rewrite coll_set_coll_eq, (find_one_snoc_None _ _ _ Hf). simpl.
    rewrite lookup_insert_eq, bool_decide_eq_true_2 by done.
    rewrite (matches_doc_truthy (FId (fresh_id env))); [done|].
    simpl. by rewrite lookup_insert_eq, bool_decide_eq_true_2.
Qed.

Lemma call_delete op u env db name id oid :
  delete_target op = Some (name, id) →
  ObjectId_of_str id = Some oid →
  call op u env db =
    (Return (RDoc {["ok" := VBool true]}),
     set_coll name (delete_one (FId oid) (coll name db)) db).
Proof.
  intros Ht Ho.
  destruct op; simpl in Ht; try done; injection Ht as <- <-; simpl;
    unfold delete_patient, delete_test, bind, ObjectId_;
    by rewrite Ho.
Qed.

(** X18: deleting a patient or a test never answers 404: for an authorized
    caller and an identifier that parses the answer is [{"ok": true}]
    whether or not a document was there.  The first document of that
    identifier is removed and no other; when there is none the database is
    unchanged, and when the identifier was not duplicated no document of
    that identifier is left. *)
Theorem delete_is_idempotent op name id oid token env db u :
  delete_target op = Some (name, id) →
  require_roles (roles_of op) token env db = (Return u, db) →
  ObjectId_of_str id = Some oid →
  let db' := (handle op token env db).2 in
  (handle op token env db).1 = Return (RDoc {["ok" := VBool true]})
  ∧ (∀ name', name' ≠ name → coll name' db' = coll name' db)
  ∧ List.length (coll name db')
      = (List.length (coll name db)
         - match find_one (FId oid) (coll name db) with
           | Some _ => 1 | None => 0 end)%nat
  ∧ (find_one (FId oid) (coll name db) = None → db' = db)
  ∧ ((count_documents (FId oid) (coll name db) ≤ 1)%nat →
     find_one (FId oid) (coll name db') = None).
Proof.
  intros Ht Hr Ho db'. subst db'.
  rewrite (handle_authorized _ _ _ _ _ Hr).
  rewrite (call_delete _ _ _ _ _ _ _ Ht Ho). simpl.
  split; [done|]. split.
  { intros name' Hne. by rewrite coll_set_coll_ne. }
  rewrite coll_set_coll_eq. split; [apply length_delete_one|]. split.
  - intros Hf. by rewrite (delete_one_no_match _ _ Hf), set_coll_coll.
  - apply find_one_delete_one.
Qed.

(** *** Updates, answered *)

Lemma update_target_model_fields op name id upd detail :
  update_target op = Some (name, id, upd, detail) →
  name = Cpatient ∨ name = Ctestcatalog →
  upd !! "_id" = None ∧ upd !! "created_at" = None.
Proof.
  intros Ht Hn.
  destruct op; simpl in Ht; try done; injection Ht as <- <- <- <-;
    destruct Hn as [?|?]; try done;
    unfold PatientIn.model_dump, TestCatalogIn.model_dump;
    by simplify_map_eq.
Qed.

(** X19: an authorized update of a stored document answers with the
    serialization of the document now stored, found again under the same
    identifier: [_id] is kept, the [id] of the answer is the canonical
    hexadecimal form of the path identifier, and [created_at] is kept unless
    the payload names it.  A Referral or TestResult payload must not name
    [_id] for this; a Patient or TestCatalog update never names [_id] nor
    [created_at]. *)
Theorem update_answers_the_stored_document
  op name id upd detail oid token env db u d :
  update_target op = Some (name, id, upd, detail) →
  require_roles (roles_of op) token env db = (Return u, db) →
  ObjectId_of_str id = Some oid →
  find_one (FId oid) (coll name db) = Some d →
  (name = Creferral ∨ name = Ctestresult → upd !! "_id" = None) →
  let db' := (handle op token env db).2 in
  ∃ d',
    (handle op token env db).1 = Return (RDoc (serialize_doc d'))
    ∧ find_one (FId oid) (coll name db') = Some d'
    ∧ d' !! "_id" = Some (VOid oid)
    ∧ serialize_doc d' !! "id" = Some (VStr (str_of_ObjectId oid))
    ∧ (upd !! "created_at" = None → d' !! "created_at" = d !! "created_at")
    ∧ (name = Cpatient ∨ name = Ctestcatalog →
       d' !! "created_at" = d !! "created_at").
Proof.
  intros Ht Hr Ho Hf Hid db'. subst db'.
  assert (upd !! "_id" = None) as Hid'.
  { clear Hr Hf. destruct op; simpl in Ht; try done;
      injection Ht as <- <- <- <-;
      first [ apply Hid; by auto
            | unfold PatientIn.model_dump, TestCatalogIn.model_dump;
              by simplify_map_eq ]. }
  set (upd' := <["updated_at" := VDate (clock1 env)]> upd).
  exists (upd' ∪ d).
  rewrite (handle_authorized _ _ _ _ _ Hr).
  rewrite (call_update _ _ _ _ _ _ _ Ht).
  destruct (find_one_split _ _ _ Hf) as (c1 & c2 & Hc & Hn).
  destruct (find_one_Some _ _ _ Hf) as [Hm _].
  assert ((upd' ∪ d) !! "_id" = Some (VOid oid)) as Hd'.
  { subst upd'. rewrite stamped_lookup. case_decide; [done|].
    rewrite Hid'. simpl in Hm.
    destruct (d !! "_id") as [[]|]; try done.
    by apply bool_decide_eq_true in Hm as ->. }
  assert (matches (FId oid) (upd' ∪ d) = true) as Hm'.
  { simpl. rewrite Hd'. by apply bool_decide_eq_true. }
  assert (find_one (FId oid) (update_one (FId oid) upd' (coll name db))
          = Some (upd' ∪ d)) as Hf'.
  { rewrite Hc, (update_one_split _ _ _ _ _ Hn Hm).
    by apply find_one_app_first. }
  assert (∀ k, k ≠ "updated_at" → upd !! k = None →
               (upd' ∪ d) !! k = d !! k) as Hkeep.
  { intros k Hk Hu. subst upd'. rewrite stamped_lookup, Hu.
    by case_decide. }
  split.
  { unfold set_and_fetch, bind, ObjectId_. rewrite Ho. simpl.
    fold upd'. rewrite coll_set_coll_eq, Hf'.
    by rewrite (matches_doc_truthy _ _ Hm'). }
  split.
  { rewrite (set_and_fetch_store _ _ _ _ _ _ _ Ho). fold upd'.
    by rewrite coll_set_coll_eq. }
  split; [done|]. split.
  { by apply serialize_doc_of_stored_document_aux. }
  split.
  { intros Hu. by apply Hkeep. }
  intros Hn'. apply Hkeep; [done|].
  by apply (update_target_model_fields _ _ _ _ _ Ht).
Qed.

(** *** Privileges by role *)

(** X20: read off the role lists of the handlers: a caller whose stored
    role is admin passes the gate of every operation, and a caller whose
    stored role is viewer passes the gate of the reads and of nothing
    else. *)
Theorem admin_passes_every_gate_viewer_reads_only op token env db u :
  get_current_user token env db = (Return u, db) →
  (u !! "role" = Some (VStr "admin") →
   handle op token env db = call op u env db)
  ∧ (u !! "role" = Some (VStr "viewer") →
     handle op token env db =
       if is_read op then call op u env db
       else (Raise (HTTPException 403 "Insufficient permissions" []), db)).
Proof.
  intros Hg. unfold handle, bind.
  rewrite (require_roles_resolved _ _ _ _ _ Hg). unfold py_get.
  split; intros ->; simpl.
  - assert (bool_decide ("admin" ∈ roles_of op) = true) as ->; [|done].
    destruct op; by vm_compute.
  - assert (bool_decide ("viewer" ∈ roles_of op) = is_read op) as ->.
    { destruct op; by vm_compute. }
    by destruct (is_read op).
Qed.

(** *** Seeding, then logging in *)

(** X21: on a database with no admin and no user under the email
    [admin@lab.local], seeding stores the default admin - active, role
    admin, the hash of [admin123] - and reports the credentials; with a
    password library that verifies the hashes it produces, a login with
    those credentials then succeeds and signs the role admin. *)
Theorem seeded_admin_can_log_in env env' db :
  admin_count db = 0%nat →
  find_one (FStr "email" "admin@lab.local") (coll Cuser db) = None →
  pwd_context_verify "admin123"
    (VStr (pwd_context_hash (salt env) "admin123")) = Return true →
  let db1 :=
    set_coll Cuser
      (coll Cuser db ++
       [<["_id" := VOid (fresh_id env)]>
          (user_document "Super Admin" "admin@lab.local"
             (pwd_context_hash (salt env) "admin123") "admin"
             (clock1 env) (clock2 env))])%list db in
  seed_admin env db
    = (Return (RDoc (<["message" := VStr "Admin seeded"]>
                     (<["email" := VStr "admin@lab.local"]>
                     (<["password" := VStr "admin123"]> ∅)))), db1)
  ∧ login "admin@lab.local" "admin123" env' db1
    = (Return (RDoc (token_response
                       (jwt_encode
                          (<["exp" := VDate (clock1 env' + 43200000000)]>
                           (<["sub" := VStr (str_of_ObjectId (fresh_id env))]>
                            (<["role" := VStr "admin"]> ∅)))
                          SECRET_KEY))), db1).
Proof.
  intros Hn Hf Hv db1.
  destruct (user_document_lookup "Super Admin" "admin@lab.local"
              (pwd_context_hash (salt env) "admin123") "admin"
              (clock1 env) (clock2 env))
    as (Hid & _ & He & Hp & Hr & _).
  split.
  - unfold seed_admin, bind, db_count_documents.
    fold (admin_count db). rewrite Hn. simpl.
    unfold db_insert_one, insert_one.
    rewrite !lookup_insert_ne, lookup_empty by done. simpl.
    unfold py_index. by rewrite lookup_insert_ne, lookup_insert_eq by done.
  - set (doc := <["_id" := VOid (fresh_id env)]> _) in db1.
    rewrite (login_success _ _ _ _ doc (VOid (fresh_id env))).
    + unfold py_get_default. subst doc.
      by rewrite lookup_insert_ne, Hr.
    + subst db1. rewrite coll_set_coll_eq, (find_one_snoc_None _ _ _ Hf).
      simpl. subst doc. rewrite lookup_insert_ne, He by done.
      by rewrite bool_decide_eq_true_2.
    + unfold verify_password, py_get_default. subst doc.
      by rewrite lookup_insert_ne, Hp.
    + subst doc. apply lookup_insert_eq.
Qed.

End Api.

(** ** The properties on the sample deployment *)

Local Abbreviation sample_get_current_user :=
  (get_current_user Sample.key Sample.jws_verify Sample.jose_claims_ok
     Sample.json_loads Sample.isoformat Sample.str_other).
Local Abbreviation sample_require_roles :=
  (require_roles Sample.key Sample.jws_verify Sample.jose_claims_ok
     Sample.json_loads Sample.isoformat Sample.str_other).
Local Abbreviation sample_handle :=
  (handle Sample.key Sample.jws_verify Sample.jose_claims_ok
     Sample.json_loads Sample.pwd_context_hash Sample.isoformat
     Sample.str_other Sample.bson_leb).
Local Abbreviation sample_call :=
  (call Sample.pwd_context_hash Sample.isoformat Sample.str_other
     Sample.bson_leb).
Local Abbreviation sample_serialize_doc :=
  (serialize_doc Sample.isoformat Sample.str_other).
Local Abbreviation sample_login :=
  (login Sample.key Sample.jwt_encode Sample.pwd_context_verify
     Sample.str_other).

(** An equation between closed terms, decided by evaluating both sides. *)
Ltac by_evaluation :=
  lazymatch goal with
  | |- ?a = ?b => vm_cast_no_check (@eq_refl _ b)
  end.

(** Two distinct closed constants. *)
Ltac by_distinct :=
  lazymatch goal with
  | |- _ ≠ _ => let E := fresh in intros E; discriminate E
  end.

(** A viewer asks to create a referral: Forbidden. *)
Lemma role_gate_witness :
  sample_get_current_user "s:viewer" Sample.env Sample.db
    = (Return (sample_serialize_doc Sample.viewer_user), Sample.db)
  ∧ sample_handle (CreateReferral Sample.referral_body) "s:viewer"
      Sample.env Sample.db
    = (Raise (HTTPException 403 "Insufficient permissions" []), Sample.db).
Proof.
  assert (sample_get_current_user "s:viewer" Sample.env Sample.db
          = (Return (sample_serialize_doc Sample.viewer_user), Sample.db))
    as H by by_evaluation.
  split; [exact H|].
  vm_cast_no_check
    (role_gate_follows_the_table Sample.key Sample.jws_verify
       Sample.jose_claims_ok Sample.json_loads Sample.pwd_context_hash
       Sample.isoformat Sample.str_other Sample.bson_leb
       (CreateReferral Sample.referral_body) "s:viewer" Sample.env
       Sample.db _ H).
Defined.

(** A token whose expiry (10 s) lies before the clock (1000 s), and a
    token whose subject is a user name. *)
Lemma access_resolution_witness :
  sample_get_current_user "s:expired" Sample.env Sample.db
    = (Raise credentials_exception, Sample.db)
  ∧ get_current_user Sample.key Sample.jws_verify Sample.jose_claims_ok
      Sample.json_loads_named Sample.isoformat Sample.str_other "s:alice"
      Sample.env Sample.db
    = (Raise (InvalidId "alice"), Sample.db).
Proof.
  assert (Unauthorized_cause Sample.key Sample.jws_verify
            Sample.jose_claims_ok Sample.json_loads "s:expired" Sample.env
            Sample.db) as H.
  { apply expired
      with (claims := dict_of_pairs
                        [("sub", VStr Sample.admin_id);
                         ("role", VStr "admin"); ("exp", VInt 10)])
           (exp := 10);
      [by_evaluation | by_evaluation | vm_compute; reflexivity]. }
  split.
  - exact (proj1 (proj1 (access_resolution_is_401_unless_the_subject_does_not_parse
                           Sample.key Sample.jws_verify Sample.jose_claims_ok
                           Sample.json_loads Sample.isoformat
                           Sample.str_other "s:expired" Sample.env Sample.db)
                    H)).
  - exact (proj1 (proj2 (access_resolution_is_401_unless_the_subject_does_not_parse
                           Sample.key Sample.jws_verify Sample.jose_claims_ok
                           Sample.json_loads_named Sample.isoformat
                           Sample.str_other "s:alice" Sample.env Sample.db)
                    (dict_of_pairs
                       [("sub", VStr "alice"); ("role", VStr "admin");
                        ("exp", VInt 5000)])
                    "alice" ltac:(by_evaluation) ltac:(by_evaluation)
                    ltac:(by_evaluation) ltac:(by_evaluation))).
Defined.

(** C2, as stated, fails: a token with a valid signature, a subject, a role
    and an expiry in the future, whose subject is no ObjectId, is answered
    with the unhandled [InvalidId], status 500, not with the 401. *)
Lemma token_with_unparsable_subject_is_a_server_error :
  jwt_decode Sample.jws_verify Sample.jose_claims_ok Sample.json_loads_named
    "s:alice" Sample.key (timegm (clock_auth Sample.env))
    = Some (dict_of_pairs
              [("sub", VStr "alice"); ("role", VStr "admin");
               ("exp", VInt 5000)])
  ∧ ObjectId_of_str "alice" = None
  ∧ (get_current_user Sample.key Sample.jws_verify Sample.jose_claims_ok
       Sample.json_loads_named Sample.isoformat Sample.str_other "s:alice"
       Sample.env Sample.db).1
    = Raise (InvalidId "alice")
  ∧ http_status
      (get_current_user Sample.key Sample.jws_verify Sample.jose_claims_ok
         Sample.json_loads_named Sample.isoformat Sample.str_other "s:alice"
         Sample.env Sample.db).1 = 500
  ∧ 500 ≠ 401.
Proof. repeat split; (by_evaluation || by_distinct). Qed.

(** The viewer's document has no [is_active] field. *)
Lemma missing_is_active_witness :
  Sample.viewer_user !! "is_active" = None
  ∧ sample_get_current_user "s:viewer" Sample.env Sample.db
    = (Return (sample_serialize_doc Sample.viewer_user), Sample.db).
Proof.
  assert (Sample.viewer_user !! "is_active" = None) as H by by_evaluation.
  split; [exact H|].
  refine (proj1 (missing_is_active_counts_as_active Sample.key
                   Sample.jws_verify Sample.jose_claims_ok Sample.json_loads
                   Sample.isoformat Sample.str_other "s:viewer" Sample.env
                   Sample.db
                   (dict_of_pairs
                      [("sub", VStr Sample.viewer_id);
                       ("role", VStr "viewer"); ("exp", VInt 5000)])
                   Sample.viewer_id (Sample.oid 2) Sample.viewer_user
                   _ _ _ _ _) (or_introl H));
    by_evaluation.
Defined.

(** C5, as stated, fails: an identifier that is no ObjectId is answered
    with the unhandled [InvalidId], status 500, neither 404 nor 400. *)
Lemma malformed_patient_id_is_a_server_error :
  ObjectId_of_str "not-an-id" = None
  ∧ (sample_handle (GetPatient "not-an-id") "s:admin" Sample.env
       Sample.db).1
    = Raise (InvalidId "not-an-id")
  ∧ http_status (sample_handle (GetPatient "not-an-id") "s:admin"
                   Sample.env Sample.db).1 = 500
  ∧ (500 ≠ 404 ∧ 500 ≠ 400).
Proof. repeat split; (by_evaluation || by_distinct). Qed.

(** An admin updates a referral under an identifier that does not parse. *)
Lemma malformed_id_witness :
  sample_handle (UpdateReferral "not-an-id" Sample.verification) "s:admin"
    Sample.env Sample.db
  = (Raise (InvalidId "not-an-id"), Sample.db).
Proof.
  refine (proj1 (malformed_id_is_not_caught Sample.key Sample.jws_verify
                   Sample.jose_claims_ok Sample.json_loads
                   Sample.pwd_context_hash Sample.isoformat Sample.str_other
                   Sample.bson_leb
                   (UpdateReferral "not-an-id" Sample.verification)
                   "not-an-id" "s:admin" Sample.env Sample.db
                   (sample_serialize_doc Sample.admin_user) _ _ _));
    by_evaluation.
Defined.

(** An admin updates a referral that is not in the store. *)
Lemma update_of_absent_id_witness :
  sample_handle (UpdateReferral Sample.gone_id Sample.verification) "s:admin"
    Sample.env Sample.db
  = (Raise (HTTPException 404 "Referral not found" []), Sample.db).
Proof.
  refine (update_of_absent_id_is_not_found Sample.key Sample.jws_verify
            Sample.jose_claims_ok Sample.json_loads Sample.pwd_context_hash
            Sample.isoformat Sample.str_other Sample.bson_leb
            (UpdateReferral Sample.gone_id Sample.verification)
            Creferral Sample.gone_id Sample.verification "Referral not found"
            (Sample.oid 9) "s:admin" Sample.env Sample.db
            (sample_serialize_doc Sample.admin_user) _ _ _ _);
    by_evaluation.
Defined.

(** C6, as stated, fails for Patient: the stored phone number, which the
    update payload does not supply, is reset to null. *)
Lemma patient_update_resets_omitted_phone :
  PatientIn.phone Sample.patient_body = None
  ∧ find_one (FId (Sample.oid 16)) (coll Cpatient Sample.db) ≫= (.!! "phone")
    = Some (VStr "555-0100")
  ∧ find_one (FId (Sample.oid 16))
      (coll Cpatient
         (sample_handle
            (UpdatePatient "000000000000000000000010" Sample.patient_body)
            "s:admin" Sample.env Sample.db).2) ≫= (.!! "phone")
    = Some VNone.
Proof. repeat split; by_evaluation. Qed.

(** The verification fields, sent as the update of a stored referral. *)
Lemma update_merge_witness :
  ∃ d',
    (sample_call (UpdateReferral "000000000000000000000020"
                    Sample.verification)
       ∅ Sample.env Sample.db).2
      = set_coll Creferral [d'] Sample.db
    ∧ d' !! "updated_at" = Some (VDate (clock1 Sample.env))
    ∧ d' !! "status" = Some (VStr "verified")
    ∧ d' !! "patient_id" = Sample.referral !! "patient_id".
Proof.
  destruct (update_merges_the_set_document Sample.pwd_context_hash
              Sample.isoformat Sample.str_other Sample.bson_leb
              (UpdateReferral "000000000000000000000020" Sample.verification)
              Creferral "000000000000000000000020" Sample.verification
              "Referral not found" (Sample.oid 32) ∅ Sample.env Sample.db
              [] Sample.referral []
              ltac:(by_evaluation) ltac:(by_evaluation) ltac:(by_evaluation)
              ltac:(by_evaluation) ltac:(by_evaluation))
    as (d' & Hs & Ht & Hin & Hout & _).
  exists d'. split; [exact Hs|]. split; [exact Ht|]. split.
  - apply Hin; [by_distinct | by_evaluation].
  - apply Hout; [by_distinct | by_evaluation].
Defined.

(** The scenario of the specification: a result is verified, the referral
    keeps its status. *)
Lemma result_verification_witness :
  coll Creferral
    (sample_handle
       (UpdateResult "000000000000000000000030" Sample.verification)
       "s:admin" Sample.env Sample.db).2
  = coll Creferral Sample.db
  ∧ ∃ d',
      find_one (FId (Sample.oid 48))
        (coll Ctestresult
           (sample_handle
              (UpdateResult "000000000000000000000030" Sample.verification)
              "s:admin" Sample.env Sample.db).2) = Some d'
      ∧ d' !! "status" = Some (VStr "verified")
      ∧ d' !! "reviewed_by" = Some (VStr Sample.admin_id)
      ∧ d' !! "reviewed_at" = Some (VStr "2024-01-01T00:00:00Z").
Proof.
  destruct (result_update_leaves_referrals_alone Sample.key Sample.jws_verify
              Sample.jose_claims_ok Sample.json_loads Sample.pwd_context_hash
              Sample.isoformat Sample.str_other Sample.bson_leb
              "000000000000000000000030" Sample.verification "s:admin"
              Sample.env Sample.db) as [Hframe Hread].
  split; [exact Hframe|].
  destruct (Hread (sample_serialize_doc Sample.admin_user) (Sample.oid 48)
              Sample.result
              ltac:(by_evaluation) ltac:(by_evaluation) ltac:(by_evaluation)
              ltac:(by_evaluation))
    as (d' & _ & Hf & _ & Hin).
  exists d'. split; [exact Hf|].
  split; [|split]; apply Hin; (by_distinct || by_evaluation).
Defined.

(** C3, as stated, fails on the status: both failures are answered 400,
    which is not the 401 of Unauthorized. *)
Lemma login_failure_is_400_not_401 :
  http_status (sample_login "nobody@lab.local" "ada-secret" Sample.env
                 Sample.db).1 = 400
  ∧ http_status (sample_login "ada@lab.local" "guess" Sample.env
                   Sample.db).1 = 400
  ∧ 400 ≠ 401.
Proof. repeat split; (by_evaluation || by_distinct). Qed.

(** An unknown email, and the admin's email with a wrong password. *)
Lemma login_failures_witness :
  sample_login "nobody@lab.local" "ada-secret" Sample.env Sample.db
    = (Raise (HTTPException 400 "Incorrect email or password" []), Sample.db)
  ∧ sample_login "ada@lab.local" "guess" Sample.env Sample.db
    = sample_login "nobody@lab.local" "ada-secret" Sample.env Sample.db.
Proof.
  refine (login_failures_are_indistinguishable Sample.key Sample.jwt_encode
            Sample.pwd_context_verify Sample.str_other Sample.db Sample.env
            Sample.env "nobody@lab.local" "ada-secret" "ada@lab.local"
            "guess" Sample.admin_user _ _ _);
    by_evaluation.
Defined.

(** C4 at the failing input: the admin of identifier
    [000000000000000000000001] creates a referral without [ordered_by]; the
    referral stored has [ordered_by] null. *)
Lemma create_referral_without_ordered_by_stores_null :
  sample_serialize_doc Sample.admin_user !! "id"
    = Some (VStr "000000000000000000000001")
  ∧ ReferralIn.ordered_by Sample.referral_body = None
  ∧ last (coll Creferral
            (sample_handle (CreateReferral Sample.referral_body) "s:admin"
               Sample.env Sample.db).2) ≫= (.!! "ordered_by")
    = Some VNone
  ∧ last (coll Creferral
            (sample_handle (CreateReferral Sample.referral_body) "s:admin"
               Sample.env Sample.db).2) ≫= (.!! "status")
    = Some (VStr "pending").
Proof. repeat split; by_evaluation. Qed.

(** ** Further properties on the sample deployment *)

Local Abbreviation sample_auth_me :=
  (auth_me Sample.key Sample.jws_verify Sample.jose_claims_ok
     Sample.json_loads Sample.isoformat Sample.str_other).
Local Abbreviation sample_register_user :=
  (register_user Sample.pwd_context_hash Sample.isoformat Sample.str_other).
Local Abbreviation sample_create_patient :=
  (create_patient Sample.isoformat Sample.str_other).
Local Abbreviation sample_get_patient :=
  (get_patient Sample.isoformat Sample.str_other).
Local Abbreviation sample_seed_admin :=
  (seed_admin Sample.pwd_context_hash).
Local Abbreviation forged_handle :=
  (handle Sample.key Sample.jws_verify Sample.jose_claims_ok
     Sample.json_loads_forged Sample.pwd_context_hash Sample.isoformat
     Sample.str_other Sample.bson_leb).

(** The twelve bytes of a sample identifier. *)
Ltac by_twelve_bytes :=
  split; [reflexivity | repeat constructor].

(** The stored patient, serialized. *)
Lemma serialize_stored_document_witness :
  sample_serialize_doc Sample.patient !! "id"
    = Some (VStr (str_of_ObjectId (Sample.oid 16)))
  ∧ sample_serialize_doc Sample.patient !! "_id" = None.
Proof.
  destruct (serialize_doc_of_stored_document Sample.isoformat
              Sample.str_other Sample.patient (Sample.oid 16)
              ltac:(by_evaluation)) as (H1 & H2 & _).
  exact (conj H1 H2).
Defined.

(** A patient update leaves the users alone. *)
Lemma request_frame_witness :
  coll Cuser
    (sample_handle
       (UpdatePatient "000000000000000000000010" Sample.patient_body)
       "s:admin" Sample.env Sample.db).2
  = coll Cuser Sample.db.
Proof.
  exact (request_writes_its_own_collection_only Sample.key
           Sample.jws_verify Sample.jose_claims_ok Sample.json_loads
           Sample.pwd_context_hash Sample.isoformat Sample.str_other
           Sample.bson_leb
           (UpdatePatient "000000000000000000000010" Sample.patient_body)
           "s:admin" Sample.env Sample.db Cuser ltac:(by_distinct)).
Defined.

(** A viewer lists the patients. *)
Lemma read_only_witness :
  (sample_handle ListPatients "s:viewer" Sample.env Sample.db).2 = Sample.db.
Proof.
  exact (reads_leave_the_database_unchanged Sample.key Sample.jws_verify
           Sample.jose_claims_ok Sample.json_loads Sample.pwd_context_hash
           Sample.isoformat Sample.str_other Sample.bson_leb ListPatients
           "s:viewer" Sample.env Sample.db eq_refl).
Defined.

(** A viewer asks to create a referral and is refused at the gate. *)
Lemma refused_request_witness :
  sample_handle (CreateReferral Sample.referral_body) "s:viewer" Sample.env
    Sample.db
  = (Raise (HTTPException 403 "Insufficient permissions" []), Sample.db).
Proof.
  exact (proj1 (refused_requests_do_nothing Sample.key Sample.jws_verify
                  Sample.jose_claims_ok Sample.json_loads
                  Sample.pwd_context_hash Sample.isoformat Sample.str_other
                  Sample.bson_leb (CreateReferral Sample.referral_body)
                  "s:viewer" Sample.env Sample.db
                  (HTTPException 403 "Insufficient permissions" [])
                  ltac:(by_evaluation))).
Defined.

(** The viewer's listing of the one stored patient. *)
Lemma listing_cap_witness :
  ∃ docs,
    sample_handle ListPatients "s:viewer" Sample.env Sample.db
      = (Return (RList docs), Sample.db)
    ∧ List.length docs
        = Nat.min 200 (List.length (coll Cpatient Sample.db)).
Proof.
  destruct (listings_are_capped Sample.key Sample.jws_verify
              Sample.jose_claims_ok Sample.json_loads
              Sample.pwd_context_hash Sample.isoformat Sample.str_other
              Sample.bson_leb ListPatients Cpatient 200%nat "s:viewer"
              Sample.env Sample.db (sample_serialize_doc Sample.viewer_user)
              eq_refl ltac:(by_evaluation)) as (docs & H1 & H2 & _).
  exact (ex_intro _ docs (conj H1 H2)).
Defined.

(** The admin asks who they are. *)
Lemma me_projection_witness :
  ∃ resp,
    sample_auth_me "s:admin" Sample.env Sample.db
      = (Return (RDoc resp), Sample.db)
    ∧ dom resp = public_fields
    ∧ resp !! "password_hash" = None.
Proof.
  destruct (me_answers_the_public_projection Sample.key Sample.jws_verify
              Sample.jose_claims_ok Sample.json_loads Sample.isoformat
              Sample.str_other "s:admin" Sample.env Sample.db
              Sample.admin_user (Sample.oid 1) (VStr "Ada")
              (VStr "ada@lab.local") (VStr "admin")
              ltac:(by_evaluation) ltac:(by_evaluation) ltac:(by_evaluation)
              ltac:(by_evaluation) ltac:(by_evaluation))
    as (resp & H1 & H2 & H3 & _).
  exact (ex_intro _ resp (conj H1 (conj H2 H3))).
Defined.

(** A user stored without a name asks who they are. *)
Lemma me_key_error_witness :
  sample_auth_me "s:viewer" Sample.env Sample.db_bare
  = (Raise (OtherError "KeyError"), Sample.db_bare).
Proof.
  refine (proj1 (me_of_incomplete_user_is_a_key_error Sample.key
                   Sample.jws_verify Sample.jose_claims_ok Sample.json_loads
                   Sample.isoformat Sample.str_other "s:viewer" Sample.env
                   Sample.db_bare Sample.bare_user (Sample.oid 2) "name"
                   ltac:(by_evaluation) ltac:(by_evaluation) _
                   ltac:(by_evaluation))).
  repeat constructor.
Defined.

(** A registration under the admin's email. *)
Lemma register_known_email_witness :
  sample_register_user Sample.known_user ∅ Sample.env Sample.db
  = (Raise (HTTPException 400 "Email already registered" []), Sample.db).
Proof.
  exact (register_user_refuses_a_known_email Sample.pwd_context_hash
           Sample.isoformat Sample.str_other Sample.known_user ∅ Sample.env
           Sample.db Sample.admin_user ltac:(by_evaluation)).
Defined.

(** A registration under a new email. *)
Lemma register_new_user_witness :
  ∃ doc resp,
    sample_register_user Sample.new_user ∅ Sample.env Sample.db
      = (Return (RDoc resp),
         set_coll Cuser (coll Cuser Sample.db ++ [doc])%list Sample.db)
    ∧ dom resp = public_fields
    ∧ resp !! "password_hash" = None.
Proof.
  destruct (register_user_stores_an_active_user Sample.pwd_context_hash
              Sample.isoformat Sample.str_other Sample.new_user ∅
              Sample.env Sample.db ltac:(by_evaluation))
    as (doc & resp & H1 & _ & _ & H4 & H5).
  exact (ex_intro _ doc (ex_intro _ resp (conj H1 (conj H4 H5)))).
Defined.

(** One user, then a second one under another email. *)
Lemma register_unique_emails_witness :
  unique_emails Sample.db_one
  ∧ unique_emails
      (sample_register_user Sample.new_user ∅ Sample.env Sample.db_one).2.
Proof.
  assert (unique_emails Sample.db_one) as H.
  { intros email.
    exact (count_documents_le_length (FStr "email" email)
             (coll Cuser Sample.db_one)). }
  split; [exact H|].
  exact (register_user_keeps_emails_unique Sample.pwd_context_hash
           Sample.isoformat Sample.str_other Sample.new_user ∅ Sample.env
           Sample.db_one H).
Defined.

(** Bob registers, then logs in. *)
Lemma register_then_login_witness :
  sample_login "bob@lab.local" "bob-secret" Sample.env
    (sample_register_user Sample.new_user ∅ Sample.env Sample.db).2
  = (Return (RDoc (token_response "s:admin")),
     (sample_register_user Sample.new_user ∅ Sample.env Sample.db).2).
Proof.
  vm_cast_no_check
    (registered_user_can_log_in Sample.key Sample.jwt_encode
       Sample.pwd_context_hash Sample.pwd_context_verify Sample.isoformat
       Sample.str_other Sample.new_user ∅ Sample.env Sample.env Sample.db
       ltac:(by_evaluation) ltac:(by_evaluation)).
Defined.

(** The admin logs in and presents the token. *)
Lemma login_token_witness :
  sample_login "ada@lab.local" "ada-secret" Sample.env Sample.db
    = (Return (RDoc (token_response "s:admin")), Sample.db)
  ∧ sample_get_current_user "s:admin" Sample.env Sample.db
    = (Return (sample_serialize_doc Sample.admin_user), Sample.db).
Proof.
  pose proof (login_token_resolves_to_the_user Sample.key Sample.jws_verify
                Sample.jwt_encode Sample.jose_claims_ok Sample.json_loads
                Sample.pwd_context_verify Sample.isoformat Sample.str_other
                "ada@lab.local" "ada-secret" Sample.env Sample.env Sample.db
                Sample.admin_user (Sample.oid 1)
                (dict_of_pairs
                   [("sub", VStr Sample.admin_id); ("role", VStr "admin");
                    ("exp", VInt 5000)])) as T.
  cbv zeta in T.
  vm_cast_no_check
    (T ltac:(by_evaluation) ltac:(by_evaluation) ltac:(by_evaluation)
       ltac:(by_twelve_bytes) ltac:(by_evaluation) ltac:(by_evaluation)
       ltac:(by_evaluation) ltac:(by_evaluation) ltac:(by_evaluation)).
Defined.

(** Two tokens for the viewer's identifier, one claiming to be admin. *)
Lemma role_claim_witness :
  forged_handle (CreateReferral Sample.referral_body) "s:admin" Sample.env
    Sample.db
  = forged_handle (CreateReferral Sample.referral_body) "s:viewer"
      Sample.env Sample.db.
Proof.
  exact (role_claim_is_not_trusted Sample.key Sample.jws_verify
           Sample.jose_claims_ok Sample.json_loads_forged
           Sample.pwd_context_hash Sample.isoformat Sample.str_other
           Sample.bson_leb (CreateReferral Sample.referral_body)
           "s:admin" "s:viewer" Sample.env Sample.db
           (dict_of_pairs
              [("sub", VStr Sample.viewer_id); ("role", VStr "admin");
               ("exp", VInt 5000)])
           (dict_of_pairs
              [("sub", VStr Sample.viewer_id); ("role", VStr "viewer");
               ("exp", VInt 5000)])
           Sample.viewer_id
           ltac:(by_evaluation) ltac:(by_evaluation) ltac:(by_evaluation)
           ltac:(by_evaluation) ltac:(by_evaluation) ltac:(by_evaluation)).
Defined.

(** A user stored without a role may not even list the patients. *)
Lemma user_without_role_witness :
  sample_handle ListPatients "s:viewer" Sample.env Sample.db_bare
  = (Raise (HTTPException 403 "Insufficient permissions" []),
     Sample.db_bare).
Proof.
  refine (user_without_role_is_forbidden_everything Sample.key
            Sample.jws_verify Sample.jose_claims_ok Sample.json_loads
            Sample.pwd_context_hash Sample.isoformat Sample.str_other
            Sample.bson_leb ListPatients "s:viewer" Sample.env
            Sample.db_bare (sample_serialize_doc Sample.bare_user)
            ltac:(by_evaluation) _).
  intros r E. vm_compute in E. discriminate E.
Defined.

(** The admin creates a referral. *)
Lemma create_appends_witness :
  ∃ doc,
    (sample_call (CreateReferral Sample.referral_body) ∅ Sample.env
       Sample.db).2
      = set_coll Creferral (coll Creferral Sample.db ++ [doc])%list Sample.db
    ∧ doc !! "created_at" = Some (VDate (clock1 Sample.env))
    ∧ doc !! "updated_at" = Some (VDate (clock2 Sample.env)).
Proof.
  destruct (create_appends_the_stamped_document Sample.pwd_context_hash
              Sample.isoformat Sample.str_other Sample.bson_leb
              (CreateReferral Sample.referral_body) ∅ Sample.env Sample.db
              Creferral _ eq_refl) as (doc & H1 & _ & H3 & H4 & _).
  exact (ex_intro _ doc (conj (f_equal snd H1) (conj H3 H4))).
Defined.

(** A patient is created and read back. *)
Lemma created_patient_read_back_witness :
  ∃ d db1,
    sample_create_patient Sample.patient_body ∅ Sample.env Sample.db
      = (Return (RDoc d), db1)
    ∧ d !! "id" = Some (VStr (str_of_ObjectId (fresh_id Sample.env)))
    ∧ sample_get_patient (str_of_ObjectId (fresh_id Sample.env)) ∅ db1
        = (Return (RDoc d), db1).
Proof.
  exact (created_patient_is_read_back Sample.pwd_context_hash
           Sample.isoformat Sample.str_other Sample.bson_leb
           Sample.patient_body ∅ ∅ Sample.env Sample.db
           ltac:(by_twelve_bytes) ltac:(by_evaluation)).
Defined.

(** The admin deletes the stored patient. *)
Lemma delete_witness :
  (sample_handle (DeletePatient "000000000000000000000010") "s:admin"
     Sample.env Sample.db).1
    = Return (RDoc {["ok" := VBool true]})
  ∧ find_one (FId (Sample.oid 16))
      (coll Cpatient
         (sample_handle (DeletePatient "000000000000000000000010") "s:admin"
            Sample.env Sample.db).2)
    = None.
Proof.
  pose proof (delete_is_idempotent Sample.key Sample.jws_verify
                Sample.jose_claims_ok Sample.json_loads
                Sample.pwd_context_hash Sample.isoformat Sample.str_other
                Sample.bson_leb (DeletePatient "000000000000000000000010")
                Cpatient "000000000000000000000010" (Sample.oid 16)
                "s:admin" Sample.env Sample.db
                (sample_serialize_doc Sample.admin_user)
                eq_refl ltac:(by_evaluation) ltac:(by_evaluation)) as T.
  cbv zeta in T. destruct T as (H1 & _ & _ & _ & H5).
  split; [exact H1|]. apply H5.
  exact (count_documents_le_length (FId (Sample.oid 16))
           (coll Cpatient Sample.db)).
Defined.

(** The admin updates the stored patient. *)
Lemma update_answer_witness :
  ∃ d',
    (sample_handle
       (UpdatePatient "000000000000000000000010" Sample.patient_body)
       "s:admin" Sample.env Sample.db).1
      = Return (RDoc (sample_serialize_doc d'))
    ∧ d' !! "_id" = Some (VOid (Sample.oid 16))
    ∧ d' !! "created_at" = Sample.patient !! "created_at".
Proof.
  pose proof (update_answers_the_stored_document Sample.key
                Sample.jws_verify Sample.jose_claims_ok Sample.json_loads
                Sample.pwd_context_hash Sample.isoformat Sample.str_other
                Sample.bson_leb
                (UpdatePatient "000000000000000000000010"
                   Sample.patient_body)
                Cpatient "000000000000000000000010"
                (PatientIn.model_dump Sample.patient_body)
                "Patient not found" (Sample.oid 16) "s:admin" Sample.env
                Sample.db (sample_serialize_doc Sample.admin_user)
                Sample.patient
                eq_refl ltac:(by_evaluation) ltac:(by_evaluation)
                ltac:(by_evaluation)
                ltac:(intros [E|E]; discriminate E)) as T.
  cbv zeta in T. destruct T as (d' & H1 & _ & H3 & _ & _ & H6).
  exact (ex_intro _ d' (conj H1 (conj H3 (H6 (or_introl eq_refl))))).
Defined.

(** The viewer may list the referrals and may not create one. *)
Lemma privileges_witness :
  sample_handle (CreateReferral Sample.referral_body) "s:viewer" Sample.env
    Sample.db
  = (if is_read (CreateReferral Sample.referral_body)
     then sample_call (CreateReferral Sample.referral_body)
            (sample_serialize_doc Sample.viewer_user) Sample.env Sample.db
     else (Raise (HTTPException 403 "Insufficient permissions" []),
           Sample.db)).
Proof.
  exact (proj2 (admin_passes_every_gate_viewer_reads_only Sample.key
                  Sample.jws_verify Sample.jose_claims_ok Sample.json_loads
                  Sample.pwd_context_hash Sample.isoformat Sample.str_other
                  Sample.bson_leb (CreateReferral Sample.referral_body)
                  "s:viewer" Sample.env Sample.db
                  (sample_serialize_doc Sample.viewer_user)
                  ltac:(by_evaluation)) ltac:(by_evaluation)).
Defined.

(** An empty database is seeded, and the default admin logs in. *)
Lemma seeded_admin_login_witness :
  sample_login "admin@lab.local" "admin123" Sample.env
    (sample_seed_admin Sample.env Sample.db_empty).2
  = (Return (RDoc (token_response "s:admin")),
     (sample_seed_admin Sample.env Sample.db_empty).2).
Proof.
  pose proof (seeded_admin_can_log_in Sample.key Sample.jwt_encode
                Sample.pwd_context_hash Sample.pwd_context_verify
                Sample.str_other Sample.env Sample.env Sample.db_empty
                ltac:(by_evaluation) ltac:(by_evaluation)
                ltac:(by_evaluation)) as T.
  cbv zeta in T. vm_cast_no_check (proj2 T).
Defined.
